(** * NovaVoice AI: the account / entitlement / quota backend of [app.py]

    A shallow embedding of the FastAPI handlers of [app.py] and of the
    SQLite store they work on.

    - A table is the list of its rows in rowid order; a row is a record
      with one field per column.
    - A handler is a computation in the monad [M]: it threads a
      connection (the persisted database, the uncommitted working copy
      of the open connection, and a countdown to an injected store
      fault) and ends in a value or in a raised exception.
    - What a handler takes from outside the process (the uuid drawn, the
      clock, the speech engine, the digest) is a field of [world].

    The connection follows Python's [sqlite3] in its default mode: an
    INSERT or UPDATE opens a transaction, [commit] makes it durable, and
    closing or dropping the connection rolls back what was not
    committed. Requests are served one at a time.

    JSON text columns are kept in parsed form, dates are day ordinals,
    REAL amounts are exact rationals, strings are byte strings. The
    sample file that [clone_voice] writes and the audio file of
    [generate_speech] live outside the store and are not modelled. *)

From Stdlib Require Import QArith_base.
From stdpp Require Import base option list strings gmap numbers pretty sorting.

Open Scope Z_scope.
Open Scope string_scope.

(** ** Rows of the four tables *)

Module Users.
Record row := Row {
  id : Z;
  username : string;
  email : string;
  password_hash : string;
  subscription_tier : string;
  subscription_expiry : option Z;
  api_key : string;
  daily_generations_left : Z }.
End Users.

(** A value of the JSON object kept in [voice_params]. *)
Inductive param :=
| PInt (n : Z)
| PStr (s : string).

Module Voices.
Record row := Row {
  id : Z;
  user_id : option Z;
  voice_name : string;
  voice_type : string;
  voice_params : list (string * param);
  language : string;
  accent : string;
  emotion_support : list string;
  sample_path : option string }.
End Voices.

Record settings := Settings {
  st_speed : Q;
  st_pitch : Q;
  st_emotion : string }.

Module AudioHistory.
Record row := Row {
  id : Z;
  user_id : Z;
  text_input : string;
  voice_id : Z;
  generated_at : Z;
  audio_file_path : string;
  settings_json : settings }.
End AudioHistory.

Module Payments.
Record row := Row {
  id : Z;
  user_id : Z;
  tier : string;
  amount : Q;
  payment_date : Z;
  payment_method : string;
  transaction_id : string }.
End Payments.

Record db := Db {
  users : list Users.row;
  voices : list Voices.row;
  audio_history : list AudioHistory.row;
  payments : list Payments.row }.

Definition empty_db : db := Db [] [] [] [].

(** ** Exceptions, the outside world, connections *)

Inductive exn :=
| HTTPException (status_code : Z) (detail : string)
| IntegrityError (msg : string)
| OperationalError (msg : string)
| TypeError (msg : string)
| EngineError (msg : string).

Definition exn_str (e : exn) : string :=
  match e with
  | HTTPException _ d => d
  | IntegrityError m | OperationalError m | TypeError m | EngineError m => m
  end.

(** What one request reads from outside the process.
    [tts_engine text params speed] is [None] when the engine wrote the
    file and [Some msg] when it raised. [store_faults = Some k] makes
    the store unavailable from its (k+1)-th statement on. *)
Record world := World {
  sha256_hexdigest : string -> string;
  uuid4 : string;
  current_timestamp : Z;
  date_today : Z;
  engine_voice_count : Z;
  tts_engine : string -> list (string * param) -> Q -> option string;
  store_faults : option nat }.

Record conn := Conn {
  persisted : db;
  working : db;
  fault_in : option nat }.

Definition M (A : Type) : Type := conn -> (exn + A) * conn.

Definition ret {A} (a : A) : M A := fun c => (inr a, c).
Definition raise {A} (e : exn) : M A := fun c => (inl e, c).
Definition bind {A B} (m : M A) (k : A -> M B) : M B :=
  fun c => match m c with
           | (inr a, c') => k a c'
           | (inl e, c') => (inl e, c')
           end.

Notation "x <~ m ;; k" := (bind m (fun x => k))
  (at level 100, m at next level, right associativity).
Notation "m ;;; k" := (bind m (fun _ => k))
  (at level 100, right associativity).

(** [try: m except Exception as e: h e] *)
Definition try_except {A} (m : M A) (h : exn -> M A) : M A :=
  fun c => match m c with
           | (inr a, c') => (inr a, c')
           | (inl e, c') => h e c'
           end.

(** [try: m finally: fin] *)
Definition try_finally {A} (m : M A) (fin : M unit) : M A :=
  fun c => match m c with
           | (r, c') =>
               match fin c' with
               | (inr _, c'') => (r, c'')
               | (inl e, c'') => (inl e, c'')
               end
           end.

(** One statement reaches the store: the countdown decides whether the
    store answers. *)
Definition tick : M unit :=
  fun c => match fault_in c with
           | Some O => (inl (OperationalError "unable to open database file"), c)
           | Some (S k) => (inr tt, Conn (persisted c) (working c) (Some k))
           | None => (inr tt, c)
           end.

(** [get_db_connection()]: a fresh connection sees the persisted data. *)
Definition get_db_connection : M unit :=
  fun c => (inr tt, Conn (persisted c) (persisted c) (fault_in c)).

(** [conn.execute("SELECT ...")] *)
Definition query {A} (f : db -> A) : M A :=
  tick ;;; fun c => (inr (f (working c)), c).

(** [conn.execute("INSERT/UPDATE ...")]: changes the working copy, or
    raises and changes nothing. *)
Definition execute {A} (f : db -> exn + (A * db)) : M A :=
  tick ;;; fun c => match f (working c) with
                    | inr (a, d) => (inr a, Conn (persisted c) d (fault_in c))
                    | inl e => (inl e, c)
                    end.

(** [conn.commit()] *)
Definition commit : M unit :=
  tick ;;; fun c => (inr tt, Conn (working c) (working c) (fault_in c)).

(** [conn.close()]: what was not committed is rolled back. *)
Definition close : M unit :=
  fun c => (inr tt, Conn (persisted c) (persisted c) (fault_in c)).

(** A request served on the store [s]: the result and what is persisted
    once the handler has returned or raised (a connection left open is
    dropped, which rolls it back). *)
Definition serve {A} (h : world -> M A) (w : world) (s : db) : (exn + A) * db :=
  match h w (Conn s s (store_faults w)) with
  | (r, c) => (r, persisted c)
  end.

(** ** SQL helpers *)

Definition maxZ (l : list Z) : Z := foldr Z.max 0 l.

(** INTEGER PRIMARY KEY AUTOINCREMENT with no row ever deleted. *)
Definition next_id (ids : list Z) : Z := maxZ ids + 1.

Definition user_by_api_key (k : string) (d : db) : option Users.row :=
  find (fun u => String.eqb (Users.api_key u) k) (users d).

Definition user_by_id (i : Z) (d : db) : option Users.row :=
  find (fun u => Z.eqb (Users.id u) i) (users d).

Definition user_by_email (e : string) (d : db) : option Users.row :=
  find (fun u => String.eqb (Users.email u) e) (users d).

Definition voice_by_id (i : Z) (d : db) : option Voices.row :=
  find (fun v => Z.eqb (Voices.id v) i) (voices d).

Definition set_users (us : list Users.row) (d : db) : db :=
  Db us (voices d) (audio_history d) (payments d).

Definition update_users_where_id (i : Z) (f : Users.row -> Users.row) (d : db) : db :=
  set_users (map (fun u => if Z.eqb (Users.id u) i then f u else u) (users d)) d.

(** ** Helper functions of the backend *)

Definition hash_password (w : world) (password : string) : string :=
  sha256_hexdigest w password.

Definition verify_password (w : world) (stored provided : string) : bool :=
  String.eqb stored (sha256_hexdigest w provided).

Definition generate_api_key (w : world) : string := uuid4 w.

(** [s[-4:]] *)
Definition last4 (s : string) : string :=
  String.substring (String.length s - 4)%nat 4%nat s.

(** ** Pydantic models *)

Record UserCreate := { uc_username : string; uc_email : string; uc_password : string }.

Record UserLogin := { ul_email : string; ul_password : string }.

Record UserResponse := {
  ur_id : Z;
  ur_username : string;
  ur_email : string;
  ur_subscription_tier : string;
  ur_api_key : option string;
  ur_daily_generations_left : Z }.

Record VoiceResponse := {
  vr_id : Z;
  vr_voice_name : string;
  vr_voice_type : string;
  vr_language : string;
  vr_accent : string;
  vr_emotion_support : list string;
  vr_user_id : option Z;
  vr_sample_path : option string }.

Record TTSRequest := {
  text : string;
  voice_id : Z;
  user_api_key : string;
  speed : Q;
  pitch : Q;
  emotion : string }.

Record SubscriptionRequest := {
  sr_user_id : Z;
  sr_tier : string;
  payment_details : gmap string string }.

Definition user_response (u : Users.row) : UserResponse :=
  {| ur_id := Users.id u;
     ur_username := Users.username u;
     ur_email := Users.email u;
     ur_subscription_tier := Users.subscription_tier u;
     ur_api_key := Some (Users.api_key u);
     ur_daily_generations_left := Users.daily_generations_left u |}.

Definition voice_response (v : Voices.row) : VoiceResponse :=
  {| vr_id := Voices.id v;
     vr_voice_name := Voices.voice_name v;
     vr_voice_type := Voices.voice_type v;
     vr_language := Voices.language v;
     vr_accent := Voices.accent v;
     vr_emotion_support := Voices.emotion_support v;
     vr_user_id := Voices.user_id v;
     vr_sample_path := Voices.sample_path v |}.

Record FileResponse := {
  fr_path : string;
  fr_media_type : string;
  fr_filename : string }.

Record CloneRequest := {
  cl_user_api_key : string;
  cl_voice_name : string;
  cl_language : string;
  cl_accent : string;
  cl_sample_filename : string }.

Record SubscriptionResponse := {
  message : string;
  user : UserResponse }.

Record HistoryItem := {
  hi_id : Z;
  hi_text_input : string;
  hi_voice_name : string;
  hi_generated_at : Z;
  hi_audio_file_path : string;
  hi_settings : settings }.

Definition GENERATED_AUDIO_DIR : string := "generated_audio".
Definition CLONED_VOICE_SAMPLES_DIR : string := "cloned_voice_samples".

(** [os.path.join(dir, name)] *)
Definition path_join (dir name : string) : string := dir +:+ "/" +:+ name.

(** ** Database setup *)

Definition is_preset (v : Voices.row) : bool :=
  String.eqb (Voices.voice_type v) "preset".

Definition default_voices
  : list (string * string * list (string * param) * string * string * list string) :=
  [ ("Nova (Neutral Male)", "preset", [("tts_engine_voice_id", PInt 0)],
     "en-US", "default", ["neutral"; "happy"; "sad"]);
    ("Stella (Neutral Female)", "preset", [("tts_engine_voice_id", PInt 1)],
     "en-US", "default", ["neutral"; "happy"; "sad"]);
    ("Orion (Deep Male)", "preset",
     [("tts_engine_voice_id", PInt 0); ("pitch_modifier", PInt (-5))],
     "en-US", "default", ["neutral"; "serious"]);
    ("Lyra (Bright Female)", "preset",
     [("tts_engine_voice_id", PInt 1); ("pitch_modifier", PInt 5)],
     "en-US", "default", ["neutral"; "excited"]);
    ("Echo (Multilingual Placeholder)", "preset", [("tts_engine_voice_id", PInt 0)],
     "mul", "various", ["neutral"]) ].

Definition insert_voice (owner : option Z) (name type : string)
    (params : list (string * param)) (lang acc : string)
    (emotions : list string) (sample : option string) (d : db) : Z * db :=
  let i := next_id (map Voices.id (voices d)) in
  (i, Db (users d)
         (voices d ++ [Voices.Row i owner name type params lang acc emotions sample])
         (audio_history d) (payments d)).

Definition insert_default_voice
    (d : db) (v : string * string * list (string * param) * string * string * list string) : db :=
  match v with
  | (name, type, params, lang, acc, emotions) =>
      snd (insert_voice None name type params lang acc emotions None d)
  end.

Definition init_db : M unit :=
  get_db_connection ;;;
  n <~ query (fun d => length (List.filter is_preset (voices d))) ;;
  (if Nat.eqb n 0
   then execute (fun d => inr (tt, foldl insert_default_voice d default_voices))
   else ret tt) ;;;
  commit ;;;
  close.

(** ** Authentication *)

Definition get_current_user_by_api_key (api_key : string) : M Users.row :=
  get_db_connection ;;;
  user <~ query (user_by_api_key api_key) ;;
  close ;;;
  match user with
  | None => raise (HTTPException 401 "Invalid API Key")
  | Some user =>
      if String.eqb (Users.subscription_tier user) "Basic"
         && Z.leb (Users.daily_generations_left user) 0
      then raise (HTTPException 403 "Daily generation limit reached for Basic tier.")
      else ret user
  end.

(** ** Endpoints *)

(** The three UNIQUE columns of [users], then the new row. *)
Definition insert_user (username email hash key tier : string) (left : Z) (d : db)
  : exn + (Z * db) :=
  if existsb (fun u => String.eqb (Users.username u) username) (users d)
  then inl (IntegrityError "UNIQUE constraint failed: users.username")
  else if existsb (fun u => String.eqb (Users.email u) email) (users d)
  then inl (IntegrityError "UNIQUE constraint failed: users.email")
  else if existsb (fun u => String.eqb (Users.api_key u) key) (users d)
  then inl (IntegrityError "UNIQUE constraint failed: users.api_key")
  else
    let i := next_id (map Users.id (users d)) in
    inr (i, set_users (users d ++ [Users.Row i username email hash tier None key left]) d).

Definition register_user (user_data : UserCreate) (w : world) : M UserResponse :=
  get_db_connection ;;;
  try_finally
    (try_except
       (let api_key := generate_api_key w in
        let hashed_pass := hash_password w (uc_password user_data) in
        user_id <~ execute (insert_user (uc_username user_data) (uc_email user_data)
                              hashed_pass api_key "Basic" 10) ;;
        commit ;;;
        new_user <~ query (user_by_id user_id) ;;
        match new_user with
        | Some u => ret (user_response u)
        | None => raise (TypeError "'NoneType' object is not iterable")
        end)
       (fun e => match e with
                 | IntegrityError _ =>
                     raise (HTTPException 400 "Username or email already exists")
                 | _ => raise e
                 end))
    close.

Definition login_user (user_data : UserLogin) (w : world) : M UserResponse :=
  get_db_connection ;;;
  user <~ query (user_by_email (ul_email user_data)) ;;
  close ;;;
  match user with
  | Some u =>
      if verify_password w (Users.password_hash u) (ul_password user_data)
      then ret (user_response u)
      else raise (HTTPException 401 "Invalid email or password")
  | None => raise (HTTPException 401 "Invalid email or password")
  end.

(** [voice_type IN ('cloned', 'designed')] *)
Definition cloned_or_designed (v : Voices.row) : bool :=
  String.eqb (Voices.voice_type v) "cloned" || String.eqb (Voices.voice_type v) "designed".

Definition owned_by (i : Z) (v : Voices.row) : bool :=
  match Voices.user_id v with
  | Some o => Z.eqb o i
  | None => false
  end.

(** The WHERE clause that [list_voices] builds; [if user_id:] is false
    for [None] and for [0]. *)
Definition voices_where (user_id : option Z) (v : Voices.row) : bool :=
  match user_id with
  | Some i =>
      if Z.eqb i 0 then is_preset v
      else is_preset v || (owned_by i v && cloned_or_designed v)
  | None => is_preset v
  end.

Definition list_voices (user_api_key : option string) (w : world) : M (list VoiceResponse) :=
  get_db_connection ;;;
  user_id <~ match user_api_key with
             | Some k =>
                 if String.eqb k "" then ret None
                 else (user <~ query (user_by_api_key k) ;;
                       ret (option_map Users.id user))
             | None => ret None
             end ;;
  voices_db <~ query (fun d => List.filter (voices_where user_id) (voices d)) ;;
  close ;;;
  ret (map voice_response voices_db).

Definition use_generation (u : Users.row) : Users.row :=
  Users.Row (Users.id u) (Users.username u) (Users.email u) (Users.password_hash u)
    (Users.subscription_tier u) (Users.subscription_expiry u) (Users.api_key u)
    (Users.daily_generations_left u - 1).

(** The emotion simulation of [generate_speech]. *)
Definition text_to_speak (request_data : TTSRequest) : string :=
  if String.eqb (emotion request_data) "happy" then "Yay! " +:+ text request_data
  else if String.eqb (emotion request_data) "sad" then "Alas... " +:+ text request_data
  else text request_data.

Definition insert_audio_history (uid : Z) (txt : string) (vid : Z) (path : string)
    (st : settings) (now : Z) (d : db) : exn + (unit * db) :=
  let i := next_id (map AudioHistory.id (audio_history d)) in
  inr (tt, Db (users d) (voices d)
              (audio_history d ++ [AudioHistory.Row i uid txt vid now path st])
              (payments d)).

Definition generate_speech (request_data : TTSRequest) (w : world) : M FileResponse :=
  user <~ get_current_user_by_api_key (user_api_key request_data) ;;
  get_db_connection ;;;
  voice_info <~ query (voice_by_id (voice_id request_data)) ;;
  match voice_info with
  | None => close ;;; raise (HTTPException 404 "Voice not found")
  | Some voice_info =>
      (if String.eqb (Users.subscription_tier user) "Basic"
       then execute (fun d => inr (tt, update_users_where_id (Users.id user) use_generation d)) ;;;
            commit
       else ret tt) ;;;
      close ;;;
      try_except
        (match tts_engine w (text_to_speak request_data)
                 (Voices.voice_params voice_info) (speed request_data) with
         | Some msg => raise (EngineError msg)
         | None =>
             let filename := uuid4 w +:+ ".wav" in
             let filepath := path_join GENERATED_AUDIO_DIR filename in
             get_db_connection ;;;
             execute (insert_audio_history (Users.id user) (text request_data)
                        (voice_id request_data) filepath
                        (Settings (speed request_data) (pitch request_data)
                           (emotion request_data))
                        (current_timestamp w)) ;;;
             commit ;;;
             close ;;;
             ret {| fr_path := filepath; fr_media_type := "audio/wav";
                    fr_filename := filename |}
         end)
        (fun e => raise (HTTPException 500 ("Failed to generate speech: " +:+ exn_str e)))
  end.

Definition clone_voice (rq : CloneRequest) (w : world) : M VoiceResponse :=
  user <~ get_current_user_by_api_key (cl_user_api_key rq) ;;
  if negb (String.eqb (Users.subscription_tier user) "Premium"
           || String.eqb (Users.subscription_tier user) "Ultimate")
  then raise (HTTPException 403 "Voice cloning requires Premium or Ultimate tier.")
  else
    let sample_filename :=
      "clone_" +:+ pretty (Users.id user) +:+ "_" +:+ uuid4 w +:+ "_"
        +:+ cl_sample_filename rq in
    let sample_filepath := path_join CLONED_VOICE_SAMPLES_DIR sample_filename in
    let cloned_voice_params :=
      [("tts_engine_voice_id", PInt (engine_voice_count w mod 2));
       ("cloned_from_sample", PStr sample_filename)] in
    get_db_connection ;;;
    try_finally
      (try_except
         (voice_id <~ execute (fun d =>
              inr (insert_voice (Some (Users.id user)) (cl_voice_name rq) "cloned"
                     cloned_voice_params (cl_language rq) (cl_accent rq) ["neutral"]
                     (Some sample_filepath) d)) ;;
          commit ;;;
          new_voice_db <~ query (voice_by_id voice_id) ;;
          match new_voice_db with
          | Some v => ret (voice_response v)
          | None => raise (TypeError "'NoneType' object is not iterable")
          end)
         (fun e => raise (HTTPException 500 ("Failed to save cloned voice: " +:+ exn_str e))))
      close.

Definition generations_map : gmap string Z :=
  {[ "Basic" := 10; "Premium" := 100; "Ultimate" := 1000 ]}.

Definition prices : gmap string Q :=
  {[ "Basic" := 0 # 1; "Premium" := 999 # 100; "Ultimate" := 2999 # 100 ]}.

Definition set_subscription (tier : string) (expiry left : Z) (u : Users.row) : Users.row :=
  Users.Row (Users.id u) (Users.username u) (Users.email u) (Users.password_hash u)
    tier (Some expiry) (Users.api_key u) left.

(** The payment method that is stored. *)
Definition masked_card (details : gmap string string) : string :=
  "Simulated Card **** " +:+ last4 (default "0000" (details !! "card_number")).

Definition insert_payment (uid : Z) (tier : string) (amount : Q) (method txn : string)
    (now : Z) (d : db) : exn + (unit * db) :=
  if existsb (fun p => String.eqb (Payments.transaction_id p) txn) (payments d)
  then inl (IntegrityError "UNIQUE constraint failed: payments.transaction_id")
  else
    let i := next_id (map Payments.id (payments d)) in
    inr (tt, Db (users d) (voices d) (audio_history d)
                (payments d ++ [Payments.Row i uid tier amount now method txn])).

Definition handle_subscription (request_data : SubscriptionRequest) (w : world)
  : M SubscriptionResponse :=
  let user_id := sr_user_id request_data in
  let tier := sr_tier request_data in
  get_db_connection ;;;
  user <~ query (user_by_id user_id) ;;
  match user with
  | None => close ;;; raise (HTTPException 404 "User not found")
  | Some _ =>
      let expiry_date := date_today w + 30 in
      execute (fun d => inr (tt, update_users_where_id user_id
                 (set_subscription tier expiry_date (default 10 (generations_map !! tier))) d)) ;;;
      execute (insert_payment user_id tier (default (0 # 1) (prices !! tier))
                 (masked_card (payment_details request_data))
                 ("SIM_TXN_" +:+ uuid4 w) (current_timestamp w)) ;;;
      commit ;;;
      updated_user <~ query (user_by_id user_id) ;;
      close ;;;
      match updated_user with
      | Some u => ret {| message := "Subscription to " +:+ tier +:+ " successful!";
                         user := user_response u |}
      | None => raise (TypeError "'NoneType' object is not iterable")
      end
  end.

Definition newer_first (a b : AudioHistory.row) : Prop :=
  AudioHistory.generated_at b <= AudioHistory.generated_at a.

#[local] Instance newer_first_dec a b : Decision (newer_first a b) :=
  Z_le_dec _ _.

(** [audio_history ah JOIN voices v ON ah.voice_id = v.id WHERE ah.user_id = ?
     ORDER BY ah.generated_at DESC] *)
Definition history_of (uid : Z) (d : db) : list HistoryItem :=
  omap (fun ah =>
          match voice_by_id (AudioHistory.voice_id ah) d with
          | Some v =>
              Some {| hi_id := AudioHistory.id ah;
                      hi_text_input := AudioHistory.text_input ah;
                      hi_voice_name := Voices.voice_name v;
                      hi_generated_at := AudioHistory.generated_at ah;
                      hi_audio_file_path := AudioHistory.audio_file_path ah;
                      hi_settings := AudioHistory.settings_json ah |}
          | None => None
          end)
       (merge_sort newer_first
          (List.filter (fun ah => Z.eqb (AudioHistory.user_id ah) uid) (audio_history d))).

Definition get_user_history (user_api_key : string) (w : world) : M (list HistoryItem) :=
  user <~ get_current_user_by_api_key user_api_key ;;
  get_db_connection ;;;
  history_db <~ query (history_of (Users.id user)) ;;
  close ;;;
  ret history_db.

(** ** Vocabulary of the properties *)

Definition quota_exhausted : exn :=
  HTTPException 403 "Daily generation limit reached for Basic tier.".

Definition tier_restricted : exn :=
  HTTPException 403 "Voice cloning requires Premium or Ultimate tier.".

Definition synthesis_failed (msg : string) : exn :=
  HTTPException 500 ("Failed to generate speech: " +:+ msg).

Definition conflict : exn :=
  HTTPException 400 "Username or email already exists".

Definition is_basic (u : Users.row) : bool :=
  String.eqb (Users.subscription_tier u) "Basic".

(** What [get_current_user_by_api_key] answers on the persisted store. *)
Definition authorize (api_key : string) (s : db) : exn + Users.row :=
  match user_by_api_key api_key s with
  | None => inl (HTTPException 401 "Invalid API Key")
  | Some u =>
      if is_basic u && Z.leb (Users.daily_generations_left u) 0
      then inl quota_exhausted
      else inr u
  end.

(** The store after the quota step of [generate_speech] for the
    authorized row [u]. *)
Definition consumed (u : Users.row) (s : db) : db :=
  if is_basic u then update_users_where_id (Users.id u) use_generation s else s.

Definition allowance_of (api_key : string) (s : db) : option Z :=
  option_map Users.daily_generations_left (user_by_api_key api_key s).

Definition succeeded {A} (r : exn + A) : bool :=
  match r with inr _ => true | inl _ => false end.

(** Generation requests served one after the other. *)
Fixpoint generate_all (reqs : list (TTSRequest * world)) (s : db)
  : list (exn + FileResponse) * db :=
  match reqs with
  | [] => ([], s)
  | (rq, w) :: rest =>
      match serve (generate_speech rq) w s with
      | (r, s1) =>
          match generate_all rest s1 with
          | (rs, s2) => (r :: rs, s2)
          end
      end
  end.

(** A request of the holder of [k] that meets no store fault, names an
    existing voice and whose synthesis does not raise. *)
Definition clean_request (k : string) (s : db) (p : TTSRequest * world) : bool :=
  String.eqb (user_api_key p.1) k
  && match store_faults p.2 with None => true | Some _ => false end
  && match voice_by_id (voice_id p.1) s with
     | Some v =>
         match tts_engine p.2 (text_to_speak p.1) (Voices.voice_params v) (speed p.1) with
         | None => true
         | Some _ => false
         end
     | None => false
     end.

(** ** Sample data *)

Definition demo_world : world :=
  {| sha256_hexdigest := fun s => "sha256:" +:+ s;
     uuid4 := "3f2b8c1e-6d4a-4f0b-9a57-0c1d2e3f4a5b";
     current_timestamp := 1762214400;
     date_today := 739924;
     engine_voice_count := 2;
     tts_engine := fun _ _ _ => None;
     store_faults := None |}.

Definition engine_down_world : world :=
  {| sha256_hexdigest := fun s => "sha256:" +:+ s;
     uuid4 := "9c0e7d55-1a2b-4c3d-8e9f-a0b1c2d3e4f5";
     current_timestamp := 1762214460;
     date_today := 739924;
     engine_voice_count := 2;
     tts_engine := fun _ _ _ => Some "run loop already started";
     store_faults := None |}.

Definition ann : Users.row :=
  Users.Row 1 "ann" "ann@example.org" "sha256:pw-ann" "Basic" None "key-ann" 10.

Definition bob : Users.row :=
  Users.Row 2 "bob" "bob@example.org" "sha256:pw-bob" "Premium" (Some 739950) "key-bob" 100.

Definition cyd : Users.row :=
  Users.Row 3 "cyd" "cyd@example.org" "sha256:pw-cyd" "Basic" None "key-cyd" 0.

Definition bob_clone : Voices.row :=
  Voices.Row 6 (Some 2) "Bob" "cloned"
    [("tts_engine_voice_id", PInt 0); ("cloned_from_sample", PStr "clone_2_x_bob.wav")]
    "en-US" "default" ["neutral"] (Some "cloned_voice_samples/clone_2_x_bob.wav").

Definition bob_payment : Payments.row :=
  Payments.Row 1 2 "Premium" (999 # 100) 1762128000 "Simulated Card **** 4242"
    "SIM_TXN_1b9d6bcd-bbfd-4b2d-9b5d-ab8dfbbd4bed".

Definition demo_db : db :=
  {| users := [ann; bob; cyd];
     voices := voices (foldl insert_default_voice empty_db default_voices) ++ [bob_clone];
     audio_history := [];
     payments := [bob_payment] |}.

Definition ann_request : TTSRequest :=
  {| text := "hello"; voice_id := 1; user_api_key := "key-ann";
     speed := 1 # 1; pitch := 1 # 1; emotion := "happy" |}.

Definition cyd_clone_request : CloneRequest :=
  {| cl_user_api_key := "key-cyd"; cl_voice_name := "Cyd"; cl_language := "en-US";
     cl_accent := "default"; cl_sample_filename := "cyd.wav" |}.

Definition ann_clone_request : CloneRequest :=
  {| cl_user_api_key := "key-ann"; cl_voice_name := "Ann"; cl_language := "en-US";
     cl_accent := "default"; cl_sample_filename := "ann.wav" |}.

Definition ann_premium : SubscriptionRequest :=
  {| sr_user_id := 1; sr_tier := "Premium";
     payment_details := {[ "card_number" := "4111111111111234"; "expiry" := "12/29";
                           "cvv" := "123" ]} |}.


Definition ann_gold : SubscriptionRequest :=
  {| sr_user_id := 1; sr_tier := "Gold";
     payment_details := {[ "card_number" := "4111111111111234" ]} |}.

(** The store stops answering at the fifth statement of the request. *)
Definition read_back_fault_world : world :=
  {| sha256_hexdigest := fun s => "sha256:" +:+ s;
     uuid4 := "3f2b8c1e-6d4a-4f0b-9a57-0c1d2e3f4a5b";
     current_timestamp := 1762214400;
     date_today := 739924;
     engine_voice_count := 2;
     tts_engine := fun _ _ _ => None;
     store_faults := Some 4%nat |}.

(** The store stops answering at the third statement of the request. *)
Definition insert_fault_world : world :=
  {| sha256_hexdigest := fun s => "sha256:" +:+ s;
     uuid4 := "3f2b8c1e-6d4a-4f0b-9a57-0c1d2e3f4a5b";
     current_timestamp := 1762214400;
     date_today := 739924;
     engine_voice_count := 2;
     tts_engine := fun _ _ _ => None;
     store_faults := Some 2%nat |}.

(** Ann asks for the same sentence [n] times. *)
Definition ann_requests (n : nat) : list (TTSRequest * world) :=
  replicate n (ann_request, demo_world).

Definition gold_db : db :=
  (serve (handle_subscription ann_gold) demo_world demo_db).2.

Definition dan_signup : UserCreate :=
  {| uc_username := "dan"; uc_email := "ann@example.org"; uc_password := "pw-dan" |}.

Definition ann_again_signup : UserCreate :=
  {| uc_username := "ann"; uc_email := "ann2@example.org"; uc_password := "pw" |}.

(** The uuid drawn is the one of Bob's earlier payment. *)
Definition replayed_uuid_world : world :=
  {| sha256_hexdigest := fun s => "sha256:" +:+ s;
     uuid4 := "1b9d6bcd-bbfd-4b2d-9b5d-ab8dfbbd4bed";
     current_timestamp := 1762214400;
     date_today := 739924;
     engine_voice_count := 2;
     tts_engine := fun _ _ _ => None;
     store_faults := None |}.


(** ** Store invariants *)

(** [users.id] is the primary key. *)
Definition ids_unique (s : db) : Prop := NoDup (map Users.id (users s)).

(** No Basic account has a negative allowance. *)
Definition allowances_nonneg (s : db) : Prop :=
  Forall (fun u => is_basic u = true -> 0 <= Users.daily_generations_left u) (users s).

(** ** The subscription transition in the words of the specification *)

(** Basic -> 10, Premium -> 100, Ultimate -> 1000, anything else -> 10. *)
Definition allowance_table (tier : string) : Z :=
  if String.eqb tier "Basic" then 10
  else if String.eqb tier "Premium" then 100
  else if String.eqb tier "Ultimate" then 1000
  else 10.

(** Basic -> 0.00, Premium -> 9.99, Ultimate -> 29.99, anything else -> 0. *)
Definition price_table (tier : string) : Q :=
  if String.eqb tier "Basic" then 0 # 1
  else if String.eqb tier "Premium" then 999 # 100
  else if String.eqb tier "Ultimate" then 2999 # 100
  else 0 # 1.


Definition transaction_ids (s : db) : list string :=
  map Payments.transaction_id (payments s).

(** The payment row that [handle_subscription] inserts. *)
Definition new_payment (rq : SubscriptionRequest) (w : world) (s : db) : Payments.row :=
  Payments.Row (next_id (map Payments.id (payments s))) (sr_user_id rq) (sr_tier rq)
    (default (0 # 1) (prices !! sr_tier rq)) (current_timestamp w)
    (masked_card (payment_details rq)) ("SIM_TXN_" +:+ uuid4 w).

(** The store with both writes of [handle_subscription] applied. *)
Definition subscribed (rq : SubscriptionRequest) (w : world) (s : db) : db :=
  Db (map (fun u => if Z.eqb (Users.id u) (sr_user_id rq)
                    then set_subscription (sr_tier rq) (date_today w + 30)
                           (default 10 (generations_map !! sr_tier rq)) u
                    else u)
          (users s))
     (voices s) (audio_history s) (payments s ++ [new_payment rq w s]).

Definition txn_collides (w : world) (s : db) : bool :=
  existsb (fun p => String.eqb (Payments.transaction_id p) ("SIM_TXN_" +:+ uuid4 w))
    (payments s).

(** Row ids start at 1, api keys are not empty, presets have no owner. *)
Definition user_ok (u : Users.row) : bool :=
  Z.ltb 0 (Users.id u) && negb (String.eqb (Users.api_key u) "").

Definition voice_ok (v : Voices.row) : bool :=
  negb (is_preset v) || match Voices.user_id v with None => true | Some _ => false end.

Definition well_formed (s : db) : bool :=
  forallb user_ok (users s) && forallb voice_ok (voices s).


(** ** Vocabulary of the further properties *)

Definition invalid_login : exn := HTTPException 401 "Invalid email or password".



(** Some account already holds the username, the email or the api key. *)
Definition taken (name mail key : string) (u : Users.row) : Prop :=
  Users.username u = name \/ Users.email u = mail \/ Users.api_key u = key.

(** The row that [register_user] inserts. *)
Definition new_account (ud : UserCreate) (w : world) (s : db) : Users.row :=
  Users.Row (next_id (map Users.id (users s))) (uc_username ud) (uc_email ud)
    (hash_password w (uc_password ud)) "Basic" None (generate_api_key w) 10.

(** The row that [generate_speech] inserts for the account [u]. *)
Definition new_history (rq : TTSRequest) (w : world) (u : Users.row) (s : db)
  : AudioHistory.row :=
  AudioHistory.Row (next_id (map AudioHistory.id (audio_history s))) (Users.id u)
    (text rq) (voice_id rq) (current_timestamp w)
    (path_join GENERATED_AUDIO_DIR (uuid4 w +:+ ".wav"))
    (Settings (speed rq) (pitch rq) (emotion rq)).

Definition add_history (r : AudioHistory.row) (s : db) : db :=
  Db (users s) (voices s) (audio_history s ++ [r]) (payments s).

(** The row that [clone_voice] inserts for the account [u]. *)
Definition new_clone (rq : CloneRequest) (w : world) (u : Users.row) (s : db) : Voices.row :=
  let sample_filename :=
    "clone_" +:+ pretty (Users.id u) +:+ "_" +:+ uuid4 w +:+ "_" +:+ cl_sample_filename rq in
  Voices.Row (next_id (map Voices.id (voices s))) (Some (Users.id u)) (cl_voice_name rq)
    "cloned"
    [("tts_engine_voice_id", PInt (engine_voice_count w mod 2));
     ("cloned_from_sample", PStr sample_filename)]
    (cl_language rq) (cl_accent rq) ["neutral"]
    (Some (path_join CLONED_VOICE_SAMPLES_DIR sample_filename)).

Definition add_voice (v : Voices.row) (s : db) : db :=
  Db (users s) (voices s ++ [v]) (audio_history s) (payments s).

Definition may_clone (u : Users.row) : bool :=
  String.eqb (Users.subscription_tier u) "Premium"
  || String.eqb (Users.subscription_tier u) "Ultimate".

(** The unique columns of the store hold no value twice. *)
Definition keys_unique (s : db) : Prop :=
  NoDup (map Users.id (users s))
  /\ NoDup (map Users.username (users s))
  /\ NoDup (map Users.email (users s))
  /\ NoDup (map Users.api_key (users s))
  /\ NoDup (map Voices.id (voices s))
  /\ NoDup (map AudioHistory.id (audio_history s))
  /\ NoDup (map Payments.id (payments s))
  /\ NoDup (map Payments.transaction_id (payments s)).

(** History rows of the account with id [i]. *)
Definition recorded (i : Z) (s : db) : Z :=
  Z.of_nat (length (List.filter (fun ah => Z.eqb (AudioHistory.user_id ah) i)
                      (audio_history s))).

(** ** Further sample data *)

Definition eve_signup : UserCreate :=
  {| uc_username := "eve"; uc_email := "eve@example.org"; uc_password := "pw-eve" |}.

Definition eve_login : UserLogin :=
  {| ul_email := "eve@example.org"; ul_password := "pw-eve" |}.

Definition cyd_login : UserLogin :=
  {| ul_email := "cyd@example.org"; ul_password := "pw-cyd" |}.

Definition bob_clone_request : CloneRequest :=
  {| cl_user_api_key := "key-bob"; cl_voice_name := "Nova (Neutral Male)";
     cl_language := "en-GB"; cl_accent := "british"; cl_sample_filename := "bob2.wav" |}.

(** Ann asks for speech in Bob's cloned voice. *)
Definition ann_borrows_request : TTSRequest :=
  {| text := "borrowed"; voice_id := 6; user_api_key := "key-ann";
     speed := 3 # 2; pitch := 1 # 1; emotion := "sad" |}.

Definition later_world : world :=
  {| sha256_hexdigest := fun s => "sha256:" +:+ s;
     uuid4 := "7e57d004-2b97-4e7a-b45f-5387367791cd";
     current_timestamp := 1762218000;
     date_today := 739924;
     engine_voice_count := 2;
     tts_engine := fun _ _ _ => None;
     store_faults := None |}.

Definition cyd_basic : SubscriptionRequest :=
  {| sr_user_id := 3; sr_tier := "Basic"; payment_details := ∅ |}.

(** A computation that leaves what is persisted as it is. *)
Definition read_only {A} (m : M A) : Prop :=
  forall c, persisted (m c).2 = persisted c.

(** A history row joined with its voice, as [get_user_history] returns it. *)
Definition history_item (ah : AudioHistory.row) (v : Voices.row) : HistoryItem :=
  {| hi_id := AudioHistory.id ah;
     hi_text_input := AudioHistory.text_input ah;
     hi_voice_name := Voices.voice_name v;
     hi_generated_at := AudioHistory.generated_at ah;
     hi_audio_file_path := AudioHistory.audio_file_path ah;
     hi_settings := AudioHistory.settings_json ah |}.


Definition bob_request : TTSRequest :=
  {| text := "good evening"; voice_id := 6; user_api_key := "key-bob";
     speed := 1 # 1; pitch := 1 # 1; emotion := "neutral" |}.

(** Ann has generated twice and Bob once. *)
Definition busy_db : db :=
  (generate_all [(ann_request, demo_world); (bob_request, demo_world);
                 (ann_borrows_request, later_world)] demo_db).2.

(** A Basic account with a single generation left. *)
Definition last_one_db : db :=
  (generate_all (ann_requests 9) demo_db).2.

(** The store after the seeding step of [init_db]. *)
Definition seeded (s : db) : db := foldl insert_default_voice s default_voices.

Definition has_preset (s : db) : bool := existsb is_preset (voices s).


(** * Properties *)

Arguments user_by_api_key : simpl never.
Arguments user_by_id : simpl never.
Arguments voice_by_id : simpl never.
Arguments update_users_where_id : simpl never.
Arguments insert_payment : simpl never.
Arguments insert_user : simpl never.
Arguments history_of : simpl never.
Arguments text_to_speak : simpl never.
Arguments String.append : simpl never.

Ltac run_monad :=
  unfold bind, try_except, try_finally, query, execute, commit, close,
    get_db_connection, tick, ret, raise; cbn.

(** ** Authorization *)

Lemma get_current_user_run k s d :
  get_current_user_by_api_key k (Conn s d None) = (authorize k s, Conn s s None).
Proof.
  unfold get_current_user_by_api_key, authorize, is_basic, quota_exhausted.
  run_monad.
  destruct (user_by_api_key k s) as [u|]; [|reflexivity].
  destruct (_ && _); reflexivity.
Qed.

Lemma authorize_exhausted k s u :
  user_by_api_key k s = Some u ->
  Users.subscription_tier u = "Basic" ->
  Users.daily_generations_left u <= 0 ->
  authorize k s = inl quota_exhausted.
Proof.
  intros Hu Ht Hn. unfold authorize, is_basic. rewrite Hu, Ht. cbn.
  destruct (Z.leb_spec (Users.daily_generations_left u) 0); [reflexivity|lia].
Qed.

Lemma authorize_basic_left k s u :
  user_by_api_key k s = Some u ->
  Users.subscription_tier u = "Basic" ->
  0 < Users.daily_generations_left u ->
  authorize k s = inr u.
Proof.
  intros Hu Ht Hn. unfold authorize, is_basic. rewrite Hu, Ht. cbn.
  destruct (Z.leb_spec (Users.daily_generations_left u) 0); [lia|reflexivity].
Qed.

Lemma authorize_not_basic k s u :
  user_by_api_key k s = Some u ->
  Users.subscription_tier u <> "Basic" ->
  authorize k s = inr u.
Proof.
  intros Hu Ht. unfold authorize, is_basic. rewrite Hu.
  destruct (String.eqb_spec (Users.subscription_tier u) "Basic"); [contradiction|reflexivity].
Qed.

(** ** The generate-speech flow, statement by statement *)

Lemma generate_speech_run rq w s :
  store_faults w = None ->
  serve (generate_speech rq) w s =
  match authorize (user_api_key rq) s with
  | inl e => (inl e, s)
  | inr u =>
      match voice_by_id (voice_id rq) s with
      | None => (inl (HTTPException 404 "Voice not found"), s)
      | Some v =>
          match tts_engine w (text_to_speak rq) (Voices.voice_params v) (speed rq) with
          | Some msg => (inl (synthesis_failed msg), consumed u s)
          | None =>
              let filename := uuid4 w +:+ ".wav" in
              let filepath := path_join GENERATED_AUDIO_DIR filename in
              (inr {| fr_path := filepath; fr_media_type := "audio/wav";
                      fr_filename := filename |},
               Db (users (consumed u s)) (voices (consumed u s))
                  (audio_history (consumed u s) ++
                     [AudioHistory.Row
                        (next_id (map AudioHistory.id (audio_history (consumed u s))))
                        (Users.id u) (text rq) (voice_id rq) (current_timestamp w)
                        filepath (Settings (speed rq) (pitch rq) (emotion rq))])
                  (payments (consumed u s)))
          end
      end
  end.
Proof.
  intros Hf. unfold serve, generate_speech. rewrite Hf.
  unfold bind at 1. rewrite get_current_user_run.
  destruct (authorize (user_api_key rq) s) as [e|u]; [reflexivity|].
  run_monad.
  destruct (voice_by_id (voice_id rq) s) as [v|]; [|reflexivity].
  unfold consumed, is_basic, synthesis_failed.
  destruct (String.eqb (Users.subscription_tier u) "Basic"); cbn;
    destruct (tts_engine w _ _ _); reflexivity.
Qed.

Lemma find_map_stable {A} (P : A -> bool) (g : A -> A) (l : list A) :
  (forall x, P (g x) = P x) ->
  find P (map g l) = option_map g (find P l).
Proof.
  intros Hg. induction l as [|x l IH]; [reflexivity|].
  cbn. rewrite Hg. destruct (P x); [reflexivity|exact IH].
Qed.

Lemma find_some_holds {A} (P : A -> bool) (l : list A) (x : A) :
  find P l = Some x -> P x = true.
Proof. intros H. apply find_some in H. tauto. Qed.

Lemma user_by_api_key_update k i f s :
  (forall r, Users.api_key (f r) = Users.api_key r) ->
  user_by_api_key k (update_users_where_id i f s) =
  option_map (fun u => if Z.eqb (Users.id u) i then f u else u) (user_by_api_key k s).
Proof.
  intros Hf. unfold user_by_api_key, update_users_where_id. cbn.
  apply find_map_stable. intros x.
  destruct (Z.eqb (Users.id x) i); [rewrite Hf|]; reflexivity.
Qed.

Lemma user_by_api_key_consumed k s u :
  user_by_api_key k s = Some u ->
  user_by_api_key k (consumed u s) =
  Some (if is_basic u then use_generation u else u).
Proof.
  intros Hu. unfold consumed. destruct (is_basic u); [|exact Hu].
  rewrite user_by_api_key_update by reflexivity.
  rewrite Hu. cbn. rewrite Z.eqb_refl. reflexivity.
Qed.


Lemma authorize_some k s u :
  authorize k s = inr u -> user_by_api_key k s = Some u.
Proof.
  unfold authorize. destruct (user_by_api_key k s) as [u'|]; [|discriminate].
  destruct (_ && _); [discriminate|]. congruence.
Qed.

(** ** Synthesis failure *)

(** C1 (as the code has it): when the synthesis step raises for a
    Basic account that passed the quota check, the request ends in the
    500 error "Failed to generate speech: ..." and appends no history
    row, but the quota step has already been committed: the account's
    [daily_generations_left] is one less than before, and nothing else
    in the store differs. *)
Theorem synthesis_failure_keeps_history_but_consumes_quota s w rq u v msg :
  store_faults w = None ->
  user_by_api_key (user_api_key rq) s = Some u ->
  Users.subscription_tier u = "Basic" ->
  0 < Users.daily_generations_left u ->
  voice_by_id (voice_id rq) s = Some v ->
  tts_engine w (text_to_speak rq) (Voices.voice_params v) (speed rq) = Some msg ->
  let out := serve (generate_speech rq) w s in
  out.1 = inl (synthesis_failed msg)
  /\ audio_history out.2 = audio_history s
  /\ voices out.2 = voices s
  /\ payments out.2 = payments s
  /\ out.2 = update_users_where_id (Users.id u) use_generation s
  /\ allowance_of (user_api_key rq) out.2 = Some (Users.daily_generations_left u - 1).
Proof.
  intros Hf Hu Ht Hn Hv He out. subst out.
  rewrite generate_speech_run by exact Hf.
  rewrite (authorize_basic_left _ _ _ Hu Ht Hn), Hv, He. cbn.
  assert (Hb : is_basic u = true) by (unfold is_basic; rewrite Ht; reflexivity).
  unfold allowance_of. rewrite (user_by_api_key_consumed _ _ _ Hu).
  unfold consumed. rewrite Hb. cbn. repeat split; reflexivity.
Qed.

Lemma synthesis_failure_keeps_history_but_consumes_quota_witness :
  let out := serve (generate_speech ann_request) engine_down_world demo_db in
  out.1 = inl (synthesis_failed "run loop already started")
  /\ audio_history out.2 = audio_history demo_db
  /\ voices out.2 = voices demo_db
  /\ payments out.2 = payments demo_db
  /\ out.2 = update_users_where_id 1 use_generation demo_db
  /\ allowance_of "key-ann" out.2 = Some 9.
Proof.
  apply (synthesis_failure_keeps_history_but_consumes_quota
           demo_db engine_down_world ann_request ann
           (Voices.Row 1 None "Nova (Neutral Male)" "preset"
              [("tts_engine_voice_id", PInt 0)] "en-US" "default"
              ["neutral"; "happy"; "sad"] None)
           "run loop already started");
    first [reflexivity | lia].
Defined.

(** C1, as stated, fails: Ann (Basic, 10 left) asks for speech, the
    engine raises, and her allowance is 9 afterwards. *)
Lemma synthesis_failure_consumes_quota_counterexample :
  ~ (forall s w rq u v msg,
        store_faults w = None ->
        user_by_api_key (user_api_key rq) s = Some u ->
        Users.subscription_tier u = "Basic" ->
        voice_by_id (voice_id rq) s = Some v ->
        tts_engine w (text_to_speak rq) (Voices.voice_params v) (speed rq) = Some msg ->
        allowance_of (user_api_key rq) (serve (generate_speech rq) w s).2
        = Some (Users.daily_generations_left u)
        /\ audio_history (serve (generate_speech rq) w s).2 = audio_history s).
Proof.
  intros H.
  specialize (H demo_db engine_down_world ann_request ann
                (Voices.Row 1 None "Nova (Neutral Male)" "preset"
                   [("tts_engine_voice_id", PInt 0)] "en-US" "default"
                   ["neutral"; "happy"; "sad"] None)
                "run loop already started"
                eq_refl eq_refl eq_refl eq_refl eq_refl).
  destruct H as [H _]. vm_compute in H. discriminate H.
Qed.

(** ** Cloning by a Basic account *)

(** C8 (as the code has it): a cloning attempt by a Basic account fails
    with a 403 error and leaves the store, hence the Voice rows,
    unchanged. The error is the tier restriction when the account has
    allowance left; with no allowance left the quota check of the
    authentication step answers first. *)
Theorem clone_voice_basic_rejected s w rq u :
  store_faults w = None ->
  user_by_api_key (cl_user_api_key rq) s = Some u ->
  Users.subscription_tier u = "Basic" ->
  serve (clone_voice rq) w s =
    (inl (if Z.leb (Users.daily_generations_left u) 0
          then quota_exhausted else tier_restricted), s)
  /\ voices (serve (clone_voice rq) w s).2 = voices s.
Proof.
  intros Hf Hu Ht.
  assert (Hs : serve (clone_voice rq) w s =
               (inl (if Z.leb (Users.daily_generations_left u) 0
                     then quota_exhausted else tier_restricted), s)).
  { unfold serve, clone_voice. rewrite Hf. unfold bind at 1.
    rewrite get_current_user_run.
    destruct (Z.leb_spec (Users.daily_generations_left u) 0) as [Hn|Hn].
    - rewrite (authorize_exhausted _ _ _ Hu Ht Hn). reflexivity.
    - rewrite (authorize_basic_left _ _ _ Hu Ht Hn), Ht. reflexivity. }
  rewrite Hs. split; reflexivity.
Qed.

Lemma clone_voice_basic_rejected_witness :
  serve (clone_voice ann_clone_request) demo_world demo_db = (inl tier_restricted, demo_db)
  /\ voices (serve (clone_voice ann_clone_request) demo_world demo_db).2 = voices demo_db.
Proof.
  apply (clone_voice_basic_rejected demo_db demo_world ann_clone_request ann);
    reflexivity.
Defined.

(** C8, as stated, fails: Cyd is Basic with no allowance left, and the
    cloning attempt is answered by the quota error, not by the tier
    restriction. *)
Lemma clone_voice_basic_exhausted_counterexample :
  ~ (forall s w rq u,
        store_faults w = None ->
        user_by_api_key (cl_user_api_key rq) s = Some u ->
        Users.subscription_tier u = "Basic" ->
        (serve (clone_voice rq) w s).1 = inl tier_restricted).
Proof.
  intros H.
  specialize (H demo_db demo_world cyd_clone_request cyd eq_refl eq_refl eq_refl).
  vm_compute in H. discriminate H.
Qed.

(** ** The quota check in front of history and cloning *)

(** C10: for a Basic account with no allowance left, the authentication
    step, the history fetch and the cloning attempt all fail with the
    same quota error, and the store is left as it was. *)
Theorem quota_gates_history_and_cloning s w k u :
  store_faults w = None ->
  user_by_api_key k s = Some u ->
  Users.subscription_tier u = "Basic" ->
  Users.daily_generations_left u <= 0 ->
  serve (fun _ => get_current_user_by_api_key k) w s = (inl quota_exhausted, s)
  /\ serve (get_user_history k) w s = (inl quota_exhausted, s)
  /\ forall rq, cl_user_api_key rq = k ->
       serve (clone_voice rq) w s = (inl quota_exhausted, s).
Proof.
  intros Hf Hu Ht Hn.
  pose proof (authorize_exhausted k s u Hu Ht Hn) as Ha.
  repeat split.
  - unfold serve. rewrite Hf, get_current_user_run, Ha. reflexivity.
  - unfold serve, get_user_history, bind. rewrite Hf, get_current_user_run, Ha. reflexivity.
  - intros rq <-. unfold serve, clone_voice, bind.
    rewrite Hf, get_current_user_run, Ha. reflexivity.
Qed.

Lemma quota_gates_history_and_cloning_witness :
  serve (fun _ => get_current_user_by_api_key "key-cyd") demo_world demo_db
    = (inl quota_exhausted, demo_db)
  /\ serve (get_user_history "key-cyd") demo_world demo_db = (inl quota_exhausted, demo_db)
  /\ forall rq, cl_user_api_key rq = "key-cyd" ->
       serve (clone_voice rq) demo_world demo_db = (inl quota_exhausted, demo_db).
Proof.
  apply (quota_gates_history_and_cloning demo_db demo_world "key-cyd" cyd);
    first [reflexivity | cbn; lia].
Defined.

(** ** Runs of generation requests *)

Lemma clean_request_voices k s s' p :
  voices s' = voices s -> clean_request k s' p = clean_request k s p.
Proof.
  intros Hv. unfold clean_request, voice_by_id. rewrite Hv. reflexivity.
Qed.

Lemma clean_request_run k s rq w u :
  clean_request k s (rq, w) = true ->
  authorize k s = inr u ->
  exists r s1,
    serve (generate_speech rq) w s = (inr r, s1)
    /\ users s1 = users (consumed u s)
    /\ voices s1 = voices s.
Proof.
  unfold clean_request. cbn. intros Hc Ha.
  apply andb_prop in Hc as [Hc Hv]. apply andb_prop in Hc as [Hk Hf].
  apply String.eqb_eq in Hk. subst k.
  destruct (store_faults w) eqn:Hw; [discriminate|].
  rewrite generate_speech_run by exact Hw. rewrite Ha.
  destruct (voice_by_id (voice_id rq) s) as [v|] eqn:Hvo; [|discriminate].
  destruct (tts_engine w _ _ _); [discriminate|].
  eexists _, _. split; [reflexivity|]. cbn. split; [reflexivity|].
  unfold consumed. destruct (is_basic u); reflexivity.
Qed.

Lemma user_by_api_key_users k s s' :
  users s' = users s -> user_by_api_key k s' = user_by_api_key k s.
Proof. intros H. unfold user_by_api_key. rewrite H. reflexivity. Qed.

Lemma forallb_clean_voices k s s' reqs :
  voices s' = voices s ->
  forallb (clean_request k s') reqs = forallb (clean_request k s) reqs.
Proof.
  intros Hv. induction reqs as [|p reqs IH]; [reflexivity|].
  cbn. rewrite IH, (clean_request_voices k s s' p Hv). reflexivity.
Qed.

Lemma forallb_take {A} (P : A -> bool) (j : nat) (l : list A) :
  forallb P l = true -> forallb P (take j l) = true.
Proof.
  revert j. induction l as [|x l IH]; intros [|j] H; try reflexivity.
  cbn in *. apply andb_prop in H as [Hx Hl]. rewrite Hx. cbn. apply IH, Hl.
Qed.

(** A Basic account with at least as much allowance as there are clean
    requests: every request succeeds and each takes one generation. *)
Lemma basic_countdown reqs : forall s k u,
  user_by_api_key k s = Some u ->
  Users.subscription_tier u = "Basic" ->
  Z.of_nat (length reqs) <= Users.daily_generations_left u ->
  forallb (clean_request k s) reqs = true ->
  forallb succeeded (generate_all reqs s).1 = true
  /\ voices (generate_all reqs s).2 = voices s
  /\ exists u',
       user_by_api_key k (generate_all reqs s).2 = Some u'
       /\ Users.subscription_tier u' = "Basic"
       /\ Users.daily_generations_left u'
          = Users.daily_generations_left u - Z.of_nat (length reqs).
Proof.
  induction reqs as [|[rq w] reqs IH]; intros s k u Hu Ht Hn Hc.
  - cbn. repeat split. exists u. repeat split; [exact Hu|exact Ht|lia].
  - cbn [length] in Hn. cbn in Hc. apply andb_prop in Hc as [Hc1 Hc].
    assert (Ha : authorize k s = inr u) by (apply authorize_basic_left; [assumption..|lia]).
    destruct (clean_request_run k s rq w u Hc1 Ha) as (r & s1 & Hrun & Hus & Hvs).
    assert (Hb : is_basic u = true) by (unfold is_basic; rewrite Ht; reflexivity).
    assert (Hu1 : user_by_api_key k s1 = Some (use_generation u)).
    { rewrite (user_by_api_key_users k (consumed u s) s1 Hus).
      rewrite (user_by_api_key_consumed k s u Hu), Hb. reflexivity. }
    rewrite <- (forallb_clean_voices k s s1 reqs Hvs) in Hc.
    destruct (IH s1 k (use_generation u) Hu1 Ht ltac:(cbn; lia) Hc)
      as (Hok & Hv & u' & Hu' & Ht' & Hn').
    cbn [generate_all]. rewrite Hrun.
    destruct (generate_all reqs s1) as [rs s2]. cbn in *.
    repeat split; [exact Hok|congruence|].
    exists u'. repeat split; [exact Hu'|exact Ht'|]. rewrite Hn'. lia.
Qed.

(** An account whose tier is not the string "Basic": clean requests
    succeed in any number and the users table is never written. *)
Lemma not_basic_unlimited reqs : forall s k u,
  user_by_api_key k s = Some u ->
  Users.subscription_tier u <> "Basic" ->
  forallb (clean_request k s) reqs = true ->
  forallb succeeded (generate_all reqs s).1 = true
  /\ length (generate_all reqs s).1 = length reqs
  /\ users (generate_all reqs s).2 = users s
  /\ voices (generate_all reqs s).2 = voices s.
Proof.
  induction reqs as [|[rq w] reqs IH]; intros s k u Hu Ht Hc.
  - cbn. repeat split.
  - cbn in Hc. apply andb_prop in Hc as [Hc1 Hc].
    pose proof (authorize_not_basic k s u Hu Ht) as Ha.
    destruct (clean_request_run k s rq w u Hc1 Ha) as (r & s1 & Hrun & Hus & Hvs).
    assert (Hb : is_basic u = false).
    { unfold is_basic. destruct (String.eqb_spec (Users.subscription_tier u) "Basic");
        [contradiction|reflexivity]. }
    unfold consumed in Hus. rewrite Hb in Hus.
    rewrite <- (user_by_api_key_users k s s1 Hus) in Hu.
    rewrite <- (forallb_clean_voices k s s1 reqs Hvs) in Hc.
    destruct (IH s1 k u Hu Ht Hc) as (Hok & Hlen & Hus' & Hvs').
    cbn [generate_all]. rewrite Hrun.
    destruct (generate_all reqs s1) as [rs s2]. cbn in *.
    repeat split; [exact Hok|congruence|congruence|congruence].
Qed.

(** ** The allowance never goes below zero *)

Lemma generate_speech_users rq w s :
  users (serve (generate_speech rq) w s).2 = users s
  \/ exists u, authorize (user_api_key rq) s = inr u
               /\ users (serve (generate_speech rq) w s).2 = users (consumed u s).
Proof.
  destruct (store_faults w) as [n|] eqn:Hw.
  - unfold serve, generate_speech, get_current_user_by_api_key. rewrite Hw.
    assert (Hcons : forall u, is_basic u = false -> users (consumed u s) = users s).
    { intros u Hb. unfold consumed. rewrite Hb. reflexivity. }
    assert (Hcons' : forall u, is_basic u = true ->
               users (consumed u s) = users (update_users_where_id (Users.id u) use_generation s)).
    { intros u Hb. unfold consumed. rewrite Hb. reflexivity. }
    unfold authorize, is_basic in *.
    do 7 (try destruct n as [|n]); run_monad;
      repeat match goal with
             | |- context [match user_by_api_key ?k ?d with _ => _ end] =>
                 destruct (user_by_api_key k d) as [u|] eqn:?; cbn
             | |- context [match voice_by_id ?k ?d with _ => _ end] =>
                 destruct (voice_by_id k d) eqn:?; cbn
             | |- context [String.eqb (Users.subscription_tier ?u) "Basic"] =>
                 destruct (String.eqb (Users.subscription_tier u) "Basic") eqn:?; cbn
             | |- context [Z.leb ?a ?b] => destruct (Z.leb a b) eqn:?; cbn
             | |- context [tts_engine ?a ?b ?c ?d] => destruct (tts_engine a b c d) eqn:?; cbn
             end;
      try (left; reflexivity);
      right; eexists; (split; [reflexivity|]);
      first [ rewrite Hcons' by assumption; reflexivity
            | rewrite Hcons by assumption; reflexivity ].
  - rewrite generate_speech_run by exact Hw. 
    destruct (authorize (user_api_key rq) s) as [e|u] eqn:Ha; [left; reflexivity|].
    destruct (voice_by_id (voice_id rq) s); [|left; reflexivity].
    destruct (tts_engine w _ _ _); right; exists u; split; reflexivity.
Qed.

Lemma NoDup_map_inj {A B} (f : A -> B) (l : list A) (x y : A) :
  NoDup (map f l) -> In x l -> In y l -> f x = f y -> x = y.
Proof.
  induction l as [|a l IH]; intros Hnd Hx Hy Hxy; [contradiction|].
  cbn in Hnd. apply NoDup_cons in Hnd as [Ha Hnd].
  destruct Hx as [->|Hx], Hy as [->|Hy].
  - reflexivity.
  - exfalso. apply Ha. rewrite Hxy. apply list_elem_of_In, in_map, Hy.
  - exfalso. apply Ha. rewrite <- Hxy. apply list_elem_of_In, in_map, Hx.
  - apply IH; assumption.
Qed.

Lemma authorize_allowance k s u :
  authorize k s = inr u -> is_basic u = true -> 0 < Users.daily_generations_left u.
Proof.
  unfold authorize. destruct (user_by_api_key k s) as [u'|]; [|discriminate].
  destruct (is_basic u') eqn:Hb; cbn.
  - destruct (Z.leb_spec (Users.daily_generations_left u') 0); [discriminate|].
    intros [= <-] _. assumption.
  - intros [= <-]. congruence.
Qed.

Lemma consumed_invariant k s u :
  ids_unique s -> allowances_nonneg s -> authorize k s = inr u ->
  map Users.id (users (consumed u s)) = map Users.id (users s)
  /\ allowances_nonneg (consumed u s).
Proof.
  intros Hid Hnn Ha. unfold consumed.
  destruct (is_basic u) eqn:Hb; [|split; [reflexivity|exact Hnn]].
  pose proof (authorize_allowance k s u Ha Hb) as Hpos.
  apply authorize_some in Ha. apply find_some in Ha as [Hin _].
  unfold update_users_where_id, allowances_nonneg, ids_unique in *. cbn. split.
  - rewrite map_map. apply map_ext. intros r.
    destruct (Z.eqb (Users.id r) (Users.id u)); reflexivity.
  - apply Forall_forall. intros r' Hr'.
    apply list_elem_of_In, in_map_iff in Hr' as (r & <- & Hr).
    destruct (Z.eqb_spec (Users.id r) (Users.id u)) as [Heq|Hne].
    + assert (r = u) by (eapply NoDup_map_inj; eauto). subst r.
      intros _. cbn. lia.
    + rewrite Forall_forall in Hnn. apply Hnn, list_elem_of_In, Hr.
Qed.


Lemma generate_speech_invariant rq w s :
  ids_unique s -> allowances_nonneg s ->
  ids_unique (serve (generate_speech rq) w s).2
  /\ allowances_nonneg (serve (generate_speech rq) w s).2.
Proof.
  intros Hid Hnn.
  destruct (generate_speech_users rq w s) as [Hu|(u & Ha & Hu)].
  - unfold ids_unique, allowances_nonneg. rewrite Hu. split; assumption.
  - destruct (consumed_invariant _ s u Hid Hnn Ha) as [Hids Hnn'].
    unfold ids_unique, allowances_nonneg in *. rewrite Hu, Hids. split; assumption.
Qed.

Lemma generate_all_invariant reqs : forall s,
  ids_unique s -> allowances_nonneg s ->
  ids_unique (generate_all reqs s).2 /\ allowances_nonneg (generate_all reqs s).2.
Proof.
  induction reqs as [|[rq w] reqs IH]; intros s Hid Hnn; [split; assumption|].
  cbn [generate_all].
  destruct (generate_speech_invariant rq w s Hid Hnn) as [Hid1 Hnn1].
  destruct (serve (generate_speech rq) w s) as [r s1]. cbn in Hid1, Hnn1.
  specialize (IH s1 Hid1 Hnn1).
  destruct (generate_all reqs s1) as [rs s2]. exact IH.
Qed.

(** C2: for a Basic account the allowance never goes below zero,
    whatever generation requests are served (with any outcome of the
    engine and of the store); starting from an allowance [n >= 1], [n]
    successful generations take it down one by one to exactly 0, and
    then the quota check rejects the account: the authentication step
    and any further generation request fail with the quota error and
    change nothing. *)
Theorem basic_quota_reaches_zero_and_stops :
  (forall reqs s,
      ids_unique s -> allowances_nonneg s ->
      allowances_nonneg (generate_all reqs s).2)
  /\ (forall s k u reqs,
        user_by_api_key k s = Some u ->
        Users.subscription_tier u = "Basic" ->
        1 <= Users.daily_generations_left u ->
        Z.of_nat (length reqs) = Users.daily_generations_left u ->
        forallb (clean_request k s) reqs = true ->
        (forall j, (j <= length reqs)%nat ->
           allowance_of k (generate_all (take j reqs) s).2
           = Some (Users.daily_generations_left u - Z.of_nat j))
        /\ forallb succeeded (generate_all reqs s).1 = true
        /\ allowance_of k (generate_all reqs s).2 = Some 0
        /\ forall w, store_faults w = None ->
             serve (fun _ => get_current_user_by_api_key k) w (generate_all reqs s).2
             = (inl quota_exhausted, (generate_all reqs s).2)
             /\ forall rq, user_api_key rq = k ->
                  serve (generate_speech rq) w (generate_all reqs s).2
                  = (inl quota_exhausted, (generate_all reqs s).2)).
Proof.
  split.
  - intros reqs s Hid Hnn. apply generate_all_invariant; assumption.
  - intros s k u reqs Hu Ht Hn Hlen Hc.
    assert (Hpre : forall j, (j <= length reqs)%nat ->
              allowance_of k (generate_all (take j reqs) s).2
              = Some (Users.daily_generations_left u - Z.of_nat j)).
    { intros j Hj.
      destruct (basic_countdown (take j reqs) s k u Hu Ht) as (_ & _ & u' & Hu' & _ & Hn').
      - rewrite length_take. lia.
      - apply forallb_take, Hc.
      - unfold allowance_of. rewrite Hu'. cbn. rewrite Hn', length_take.
        f_equal. f_equal. lia. }
    destruct (basic_countdown reqs s k u Hu Ht ltac:(lia) Hc)
      as (Hok & _ & u' & Hu' & Ht' & Hn').
    assert (Hz : Users.daily_generations_left u' = 0) by lia.
    repeat split.
    + exact Hpre.
    + exact Hok.
    + unfold allowance_of. rewrite Hu'. cbn. congruence.
    + unfold serve. rewrite H, get_current_user_run.
      rewrite (authorize_exhausted _ _ _ Hu' Ht' ltac:(lia)). reflexivity.
    + intros rq <-. rewrite generate_speech_run by assumption.
      rewrite (authorize_exhausted _ _ _ Hu' Ht' ltac:(lia)). reflexivity.
Qed.

Lemma basic_quota_reaches_zero_and_stops_witness :
  allowances_nonneg (generate_all (ann_requests 12) demo_db).2
  /\ forallb succeeded (generate_all (ann_requests 10) demo_db).1 = true
  /\ allowance_of "key-ann" (generate_all (ann_requests 10) demo_db).2 = Some 0
  /\ serve (generate_speech ann_request) demo_world (generate_all (ann_requests 10) demo_db).2
     = (inl quota_exhausted, (generate_all (ann_requests 10) demo_db).2).
Proof.
  destruct basic_quota_reaches_zero_and_stops as [Hinv Hrun].
  split.
  - apply Hinv.
    + unfold ids_unique. compute_done.
    + unfold allowances_nonneg. cbn. repeat constructor; intros _; cbn; lia.
  - destruct (Hrun demo_db "key-ann" ann (ann_requests 10))
      as (_ & Hok & Hzero & Hnext); try reflexivity; [cbn; lia|].
    split; [exact Hok|]. split; [exact Hzero|].
    apply (Hnext demo_world); reflexivity.
Defined.

(** ** The subscription transition *)

Lemma generations_map_table tier :
  default 10 (generations_map !! tier) = allowance_table tier.
Proof.
  unfold allowance_table, generations_map.
  destruct (String.eqb_spec tier "Basic") as [->|H1]; [reflexivity|].
  destruct (String.eqb_spec tier "Premium") as [->|H2]; [reflexivity|].
  destruct (String.eqb_spec tier "Ultimate") as [->|H3]; [reflexivity|].
  rewrite !lookup_insert_ne, lookup_singleton_ne by congruence. reflexivity.
Qed.

Lemma prices_table tier :
  default (0 # 1) (prices !! tier) = price_table tier.
Proof.
  unfold price_table, prices.
  destruct (String.eqb_spec tier "Basic") as [->|H1]; [reflexivity|].
  destruct (String.eqb_spec tier "Premium") as [->|H2]; [reflexivity|].
  destruct (String.eqb_spec tier "Ultimate") as [->|H3]; [reflexivity|].
  rewrite !lookup_insert_ne, lookup_singleton_ne by congruence. reflexivity.
Qed.

Lemma user_by_id_subscribed rq w s u :
  user_by_id (sr_user_id rq) s = Some u ->
  user_by_id (sr_user_id rq) (subscribed rq w s)
  = Some (set_subscription (sr_tier rq) (date_today w + 30)
            (default 10 (generations_map !! sr_tier rq)) u).
Proof.
  intros Hu. unfold user_by_id, subscribed in *. cbn.
  rewrite find_map_stable.
  - rewrite Hu. cbn. rewrite (find_some_holds _ _ _ Hu). reflexivity.
  - intros x. destruct (Z.eqb (Users.id x) (sr_user_id rq)) eqn:E; cbn; exact E.
Qed.

Lemma handle_subscription_run rq w s :
  store_faults w = None ->
  serve (handle_subscription rq) w s =
  match user_by_id (sr_user_id rq) s with
  | None => (inl (HTTPException 404 "User not found"), s)
  | Some u =>
      if txn_collides w s
      then (inl (IntegrityError "UNIQUE constraint failed: payments.transaction_id"), s)
      else (inr {| message := "Subscription to " +:+ sr_tier rq +:+ " successful!";
                   user := user_response
                             (set_subscription (sr_tier rq) (date_today w + 30)
                                (default 10 (generations_map !! sr_tier rq)) u) |},
            subscribed rq w s)
  end.
Proof.
  intros Hf. unfold serve, handle_subscription. rewrite Hf. run_monad.
  destruct (user_by_id (sr_user_id rq) s) as [u|] eqn:Hu; [|reflexivity].
  cbn. unfold insert_payment, txn_collides, update_users_where_id, set_users. cbn.
  destruct (existsb _ (payments s)); [reflexivity|]. cbn.
  change (Db _ _ _ _) with (subscribed rq w s).
  rewrite (user_by_id_subscribed rq w s u Hu). reflexivity.
Qed.

Ltac case_lookups s :=
  repeat match goal with
         | |- context [match user_by_id ?k s with _ => _ end] =>
             destruct (user_by_id k s) eqn:?; cbn
         | |- context [if existsb ?p ?l then _ else _] =>
             destruct (existsb p l) eqn:?; cbn
         end.

(** Whatever the store does, a request that succeeds has found the
    account, has drawn an unused transaction id and has persisted both
    writes. *)
Lemma handle_subscription_success rq w s r s' :
  serve (handle_subscription rq) w s = (inr r, s') ->
  exists u,
    user_by_id (sr_user_id rq) s = Some u
    /\ txn_collides w s = false
    /\ r = {| message := "Subscription to " +:+ sr_tier rq +:+ " successful!";
              user := user_response
                        (set_subscription (sr_tier rq) (date_today w + 30)
                           (default 10 (generations_map !! sr_tier rq)) u) |}
    /\ s' = subscribed rq w s.
Proof.
  destruct (store_faults w) as [n|] eqn:Hw.
  - unfold serve, handle_subscription. rewrite Hw.
    do 5 (try destruct n as [|n]); run_monad;
      unfold insert_payment, update_users_where_id, set_users; cbn;
      case_lookups s; try discriminate.
    change (Db (map _ (users s)) _ _ _) with (subscribed rq w s).
    match goal with H : user_by_id _ s = Some _ |- _ =>
      rewrite (user_by_id_subscribed rq w s _ H) end.
    cbn. intros [= <- <-]. eexists. repeat split. assumption.
  - rewrite handle_subscription_run by exact Hw.
    destruct (user_by_id (sr_user_id rq) s) as [u|]; [|discriminate].
    destruct (txn_collides w s) eqn:Hc; [discriminate|].
    intros [= <- <-]. exists u. repeat split.
Qed.



Lemma txn_collides_false w s :
  txn_collides w s = false ->
  Forall (fun t => t <> "SIM_TXN_" +:+ uuid4 w) (transaction_ids s).
Proof.
  unfold txn_collides, transaction_ids. intros H.
  apply Forall_forall. intros t Ht Heq.
  apply list_elem_of_In, in_map_iff in Ht as (p & <- & Hp).
  assert (existsb (fun p => String.eqb (Payments.transaction_id p) ("SIM_TXN_" +:+ uuid4 w))
            (payments s) = true) as Hex.
  { apply existsb_exists. exists p. split; [exact Hp|]. apply String.eqb_eq, Heq. }
  congruence.
Qed.






(** ** What is kept of the card number *)






(** ** Tiers outside the three names *)

Lemma generate_speech_not_basic_users rq w s u :
  user_by_api_key (user_api_key rq) s = Some u ->
  Users.subscription_tier u <> "Basic" ->
  users (serve (generate_speech rq) w s).2 = users s.
Proof.
  intros Hu Ht.
  destruct (generate_speech_users rq w s) as [H|(u' & Ha & H)]; [exact H|].
  rewrite (authorize_not_basic _ _ _ Hu Ht) in Ha. injection Ha as <-.
  rewrite H. unfold consumed, is_basic.
  destruct (String.eqb_spec (Users.subscription_tier u) "Basic"); [contradiction|reflexivity].
Qed.

(** C9: the transition stores the requested tier string as it is, so
    any name, known or not, becomes the account's tier; and an account
    whose tier is not exactly "Basic" passes the quota check whatever
    its allowance, is never decremented by a generation request, and
    has clean generation requests succeed in any number. *)
Theorem unknown_tier_is_stored_and_unmetered :
  (forall rq w s r s',
      serve (handle_subscription rq) w s = (inr r, s') ->
      ur_subscription_tier (user r) = sr_tier rq
      /\ exists u', user_by_id (sr_user_id rq) s' = Some u'
                    /\ Users.subscription_tier u' = sr_tier rq)
  /\ (forall k w s u,
        store_faults w = None ->
        user_by_api_key k s = Some u ->
        Users.subscription_tier u <> "Basic" ->
        serve (fun _ => get_current_user_by_api_key k) w s = (inr u, s))
  /\ (forall rq w s u,
        user_by_api_key (user_api_key rq) s = Some u ->
        Users.subscription_tier u <> "Basic" ->
        users (serve (generate_speech rq) w s).2 = users s)
  /\ (forall reqs s k u,
        user_by_api_key k s = Some u ->
        Users.subscription_tier u <> "Basic" ->
        forallb (clean_request k s) reqs = true ->
        forallb succeeded (generate_all reqs s).1 = true
        /\ length (generate_all reqs s).1 = length reqs
        /\ users (generate_all reqs s).2 = users s).
Proof.
  split; [|split; [|split]].
  - intros rq w s r s' Hrun.
    apply handle_subscription_success in Hrun as (u & Hu & _ & -> & ->).
    split; [reflexivity|].
    eexists. split; [apply (user_by_id_subscribed rq w s u Hu)|reflexivity].
  - intros k w s u Hf Hu Ht. unfold serve.
    rewrite Hf, get_current_user_run, (authorize_not_basic _ _ _ Hu Ht). reflexivity.
  - intros rq w s u. apply generate_speech_not_basic_users.
  - intros reqs s k u Hu Ht Hc.
    destruct (not_basic_unlimited reqs s k u Hu Ht Hc) as (H1 & H2 & H3 & _).
    repeat split; assumption.
Qed.

Lemma unknown_tier_is_stored_and_unmetered_witness :
  option_map Users.subscription_tier (user_by_id 1 gold_db) = Some "Gold"
  /\ serve (fun _ => get_current_user_by_api_key "key-bob") demo_world demo_db
     = (inr bob, demo_db)
  /\ users (serve (generate_speech ann_request) engine_down_world gold_db).2 = users gold_db
  /\ forallb succeeded (generate_all (ann_requests 25) gold_db).1 = true
  /\ length (generate_all (ann_requests 25) gold_db).1 = 25%nat
  /\ users (generate_all (ann_requests 25) gold_db).2 = users gold_db.
Proof.
  destruct unknown_tier_is_stored_and_unmetered as (Hstore & Hauth & Hgen & Hall).
  split; [|split; [|split]].
  - assert (exists r, serve (handle_subscription ann_gold) demo_world demo_db = (inr r, gold_db))
      as [r Hrun] by (eexists; reflexivity).
    destruct (Hstore _ _ _ _ _ Hrun) as (_ & u' & Hu' & Ht').
    cbn in Hu'. rewrite Hu'. cbn. rewrite Ht'. reflexivity.
  - apply Hauth; [reflexivity|reflexivity|cbn; discriminate].
  - apply (Hgen ann_request engine_down_world gold_db
             (set_subscription "Gold" 739954 10 ann));
      [reflexivity|cbn; discriminate].
  - apply (Hall (ann_requests 25) gold_db "key-ann"
             (set_subscription "Gold" 739954 10 ann));
      [reflexivity|cbn; discriminate|reflexivity].
Defined.

(** ** Registration *)

Lemma register_user_run ud w s :
  store_faults w = None ->
  serve (register_user ud) w s =
  match insert_user (uc_username ud) (uc_email ud) (hash_password w (uc_password ud))
          (generate_api_key w) "Basic" 10 s with
  | inl _ => (inl conflict, s)
  | inr (i, d) =>
      match user_by_id i d with
      | Some u => (inr (user_response u), d)
      | None => (inl (TypeError "'NoneType' object is not iterable"), d)
      end
  end.
Proof.
  intros Hf. unfold serve, register_user. rewrite Hf. run_monad.
  destruct (insert_user _ _ _ _ _ _ s) as [e|[i d]] eqn:Hi; cbn.
  - unfold insert_user in Hi.
    repeat match type of Hi with
           | (if ?b then _ else _) = _ => destruct b
           end; try discriminate; injection Hi as <-; reflexivity.
  - destruct (user_by_id i d); reflexivity.
Qed.

Lemma insert_user_duplicate name mail hash key tier left s u :
  In u (users s) ->
  Users.username u = name \/ Users.email u = mail ->
  exists msg, insert_user name mail hash key tier left s = inl (IntegrityError msg).
Proof.
  intros Hin Hdup. unfold insert_user.
  destruct (existsb (fun u => String.eqb (Users.username u) name) (users s)) eqn:E1;
    [eexists; reflexivity|].
  destruct (existsb (fun u => String.eqb (Users.email u) mail) (users s)) eqn:E2;
    [eexists; reflexivity|].
  exfalso. destruct Hdup as [H|H].
  - assert (existsb (fun u => String.eqb (Users.username u) name) (users s) = true).
    { apply existsb_exists. exists u. split; [exact Hin|apply String.eqb_eq, H]. }
    congruence.
  - assert (existsb (fun u => String.eqb (Users.email u) mail) (users s) = true).
    { apply existsb_exists. exists u. split; [exact Hin|apply String.eqb_eq, H]. }
    congruence.
Qed.

(** C6: registering with a username or an email that an account already
    has fails with the 400 error "Username or email already exists",
    and the store is exactly as before: no row is added and no field of
    an existing account changes. *)
Theorem register_duplicate_conflict ud w s u :
  store_faults w = None ->
  In u (users s) ->
  Users.username u = uc_username ud \/ Users.email u = uc_email ud ->
  serve (register_user ud) w s = (inl conflict, s)
  /\ users (serve (register_user ud) w s).2 = users s
  /\ In u (users (serve (register_user ud) w s).2).
Proof.
  intros Hf Hin Hdup.
  assert (Hrun : serve (register_user ud) w s = (inl conflict, s)).
  { rewrite register_user_run by exact Hf.
    destruct (insert_user_duplicate (uc_username ud) (uc_email ud)
                (hash_password w (uc_password ud)) (generate_api_key w) "Basic" 10 s u
                Hin Hdup) as [msg ->].
    reflexivity. }
  rewrite Hrun. repeat split. exact Hin.
Qed.

Lemma register_duplicate_conflict_witness :
  (serve (register_user dan_signup) demo_world demo_db = (inl conflict, demo_db)
   /\ users (serve (register_user dan_signup) demo_world demo_db).2 = users demo_db
   /\ In ann (users (serve (register_user dan_signup) demo_world demo_db).2))
  /\ (serve (register_user ann_again_signup) demo_world demo_db = (inl conflict, demo_db)
      /\ users (serve (register_user ann_again_signup) demo_world demo_db).2 = users demo_db
      /\ In ann (users (serve (register_user ann_again_signup) demo_world demo_db).2)).
Proof.
  split.
  - apply (register_duplicate_conflict dan_signup demo_world demo_db ann);
      [reflexivity|left; reflexivity|right; reflexivity].
  - apply (register_duplicate_conflict ann_again_signup demo_world demo_db ann);
      [reflexivity|left; reflexivity|left; reflexivity].
Defined.

(** ** The catalog *)

Lemma list_voices_run key w s :
  store_faults w = None ->
  serve (list_voices key) w s =
  (inr (map voice_response
          (List.filter
             (voices_where
                match key with
                | Some k => if String.eqb k "" then None
                            else option_map Users.id (user_by_api_key k s)
                | None => None
                end)
             (voices s))), s).
Proof.
  intros Hf. unfold serve, list_voices. rewrite Hf.
  destruct key as [k|]; [|reflexivity].
  destruct (String.eqb k ""); reflexivity.
Qed.






(** ** The store stays well formed *)

Lemma maxZ_nonneg (l : list Z) : 0 <= maxZ l.
Proof. unfold maxZ. induction l as [|x l IH]; cbn; lia. Qed.

Lemma forallb_map_stable {A} (P : A -> bool) (g : A -> A) (l : list A) :
  (forall x, P (g x) = P x) -> forallb P (map g l) = forallb P l.
Proof.
  intros Hg. induction l as [|x l IH]; [reflexivity|].
  cbn. rewrite Hg, IH. reflexivity.
Qed.

Lemma well_formed_consumed u s :
  well_formed s = true -> well_formed (consumed u s) = true.
Proof.
  unfold consumed. destruct (is_basic u); [|trivial].
  unfold well_formed, update_users_where_id. cbn. intros H.
  rewrite forallb_map_stable; [exact H|].
  intros x. destruct (Z.eqb (Users.id x) (Users.id u)); reflexivity.
Qed.

Lemma well_formed_init w :
  store_faults w = None ->
  well_formed (serve (fun _ => init_db) w empty_db).2 = true.
Proof. intros Hf. unfold serve. rewrite Hf. reflexivity. Qed.

Lemma well_formed_register ud w s :
  store_faults w = None -> uuid4 w <> "" ->
  well_formed s = true ->
  well_formed (serve (register_user ud) w s).2 = true.
Proof.
  intros Hf Hk Hwf. rewrite register_user_run by exact Hf.
  destruct (insert_user _ _ _ _ _ _ s) as [e|[i d]] eqn:Hi; [exact Hwf|].
  assert (Hd : well_formed d = true).
  { unfold insert_user in Hi.
    repeat match type of Hi with
           | (if ?b then _ else _) = _ => destruct b
           end; try discriminate.
    injection Hi as <- <-.
    unfold well_formed in *. cbn. apply andb_prop in Hwf as [Hu Hv].
    rewrite forallb_app, Hu, Hv. cbn. unfold user_ok, generate_api_key. cbn.
    pose proof (maxZ_nonneg (map Users.id (users s))).
    destruct (Z.ltb_spec 0 (next_id (map Users.id (users s)))); [|unfold next_id in *; lia].
    destruct (String.eqb_spec (uuid4 w) ""); [contradiction|reflexivity]. }
  destruct (user_by_id i d); exact Hd.
Qed.

Lemma well_formed_generate rq w s :
  store_faults w = None ->
  well_formed s = true ->
  well_formed (serve (generate_speech rq) w s).2 = true.
Proof.
  intros Hf Hwf. rewrite generate_speech_run by exact Hf.
  destruct (authorize (user_api_key rq) s) as [e|u]; [exact Hwf|].
  destruct (voice_by_id (voice_id rq) s); [|exact Hwf].
  pose proof (well_formed_consumed u s Hwf) as Hc.
  destruct (tts_engine w _ _ _); exact Hc.
Qed.

Lemma well_formed_subscribe rq w s :
  store_faults w = None ->
  well_formed s = true ->
  well_formed (serve (handle_subscription rq) w s).2 = true.
Proof.
  intros Hf Hwf. rewrite handle_subscription_run by exact Hf.
  destruct (user_by_id (sr_user_id rq) s); [|exact Hwf].
  destruct (txn_collides w s); [exact Hwf|].
  unfold well_formed, subscribed in *. cbn.
  rewrite forallb_map_stable; [exact Hwf|].
  intros x. destruct (Z.eqb (Users.id x) (sr_user_id rq)); reflexivity.
Qed.

Lemma well_formed_clone rq w s :
  store_faults w = None ->
  well_formed s = true ->
  well_formed (serve (clone_voice rq) w s).2 = true.
Proof.
  intros Hf Hwf. unfold serve, clone_voice. rewrite Hf. unfold bind at 1.
  rewrite get_current_user_run.
  destruct (authorize (cl_user_api_key rq) s) as [e|u]; [exact Hwf|].
  destruct (negb _); [exact Hwf|].
  run_monad.
  match goal with
  | |- context [voice_by_id ?i ?d] => destruct (voice_by_id i d)
  end; cbn;
    unfold well_formed in *; cbn; apply andb_prop in Hwf as [Hu Hv];
    rewrite forallb_app, Hu, Hv; reflexivity.
Qed.

(** ** The scenario of a fresh account *)

(** Ann, fresh and Basic with 10 generations, generates ten times; the
    eleventh request is refused and leaves the allowance at 0; after a
    change to Ultimate the next request succeeds and the allowance
    stays at 1000. *)
Example fresh_account_scenario :
  let s10 := (generate_all (ann_requests 10) demo_db).2 in
  let s11 := (serve (generate_speech ann_request) demo_world s10).2 in
  let ultimate := {| sr_user_id := 1; sr_tier := "Ultimate";
                     payment_details := {[ "card_number" := "4111111111111234" ]} |} in
  let s12 := (serve (handle_subscription ultimate) demo_world s11).2 in
  let out := serve (generate_speech ann_request) demo_world s12 in
  forallb succeeded (generate_all (ann_requests 10) demo_db).1 = true
  /\ allowance_of "key-ann" s10 = Some 0
  /\ (serve (generate_speech ann_request) demo_world s10).1 = inl quota_exhausted
  /\ allowance_of "key-ann" s11 = Some 0
  /\ allowance_of "key-ann" s12 = Some 1000
  /\ succeeded out.1 = true
  /\ allowance_of "key-ann" out.2 = Some 1000
  /\ length (audio_history out.2) = 11%nat.
Proof. vm_compute. repeat split. Qed.

(** * Further properties of the backend *)

(** ** Fresh row ids *)

Lemma maxZ_upper (l : list Z) (x : Z) : In x l -> x <= maxZ l.
Proof.
  unfold maxZ. induction l as [|y l IH]; cbn; [contradiction|].
  intros [->|H]; [lia|]. specialize (IH H). lia.
Qed.

Lemma next_id_fresh (l : list Z) (x : Z) : In x l -> x < next_id l.
Proof. intros H. apply maxZ_upper in H. unfold next_id. lia. Qed.

Lemma next_id_not_in (l : list Z) : ~ In (next_id l) l.
Proof. intros H. apply next_id_fresh in H. lia. Qed.

Lemma find_app_last {A} (P : A -> bool) (l : list A) (x : A) :
  find P (l ++ [x]) =
  match find P l with
  | Some y => Some y
  | None => if P x then Some x else None
  end.
Proof.
  induction l as [|y l IH]; cbn; [destruct (P x); reflexivity|].
  destruct (P y); [reflexivity|exact IH].
Qed.

Lemma find_none_forall {A} (P : A -> bool) (l : list A) :
  (forall x, In x l -> P x = false) -> find P l = None.
Proof.
  induction l as [|y l IH]; intros H; [reflexivity|].
  cbn. rewrite (H y (or_introl eq_refl)). apply IH. intros x Hx. apply H. right. exact Hx.
Qed.

Lemma find_is_some {A} (P : A -> bool) (l : list A) (x : A) :
  In x l -> P x = true -> exists y, find P l = Some y.
Proof.
  induction l as [|y l IH]; intros Hin Hx; [contradiction|].
  cbn. destruct (P y) eqn:Hy; [eauto|].
  destruct Hin as [->|Hin]; [congruence|]. apply IH; assumption.
Qed.

Lemma existsb_false_forall {A} (P : A -> bool) (l : list A) :
  existsb P l = false <-> forall x, In x l -> P x = false.
Proof.
  split.
  - intros H x Hx. destruct (P x) eqn:Hp; [|reflexivity].
    assert (existsb P l = true) by (apply existsb_exists; eauto). congruence.
  - intros H. destruct (existsb P l) eqn:He; [|reflexivity].
    apply existsb_exists in He as (x & Hx & Hp). rewrite (H x Hx) in Hp. discriminate.
Qed.

(** ** Registration *)

Lemma insert_user_result name mail hash key tier left s :
  (exists u, In u (users s) /\ taken name mail key u)
  /\ (exists msg, insert_user name mail hash key tier left s = inl (IntegrityError msg))
  \/ (forall u, In u (users s) -> ~ taken name mail key u)
     /\ insert_user name mail hash key tier left s
        = inr (next_id (map Users.id (users s)),
               set_users (users s ++ [Users.Row (next_id (map Users.id (users s)))
                                        name mail hash tier None key left]) s).
Proof.
  unfold insert_user, taken.
  destruct (existsb (fun u => String.eqb (Users.username u) name) (users s)) eqn:E1.
  { left. apply existsb_exists in E1 as (u & Hu & He). apply String.eqb_eq in He.
    split; [exists u; tauto|eexists; reflexivity]. }
  destruct (existsb (fun u => String.eqb (Users.email u) mail) (users s)) eqn:E2.
  { left. apply existsb_exists in E2 as (u & Hu & He). apply String.eqb_eq in He.
    split; [exists u; tauto|eexists; reflexivity]. }
  destruct (existsb (fun u => String.eqb (Users.api_key u) key) (users s)) eqn:E3.
  { left. apply existsb_exists in E3 as (u & Hu & He). apply String.eqb_eq in He.
    split; [exists u; tauto|eexists; reflexivity]. }
  right. split; [|reflexivity].
  intros u Hu [H|[H|H]].
  - rewrite existsb_false_forall in E1. specialize (E1 u Hu).
    apply String.eqb_neq in E1. contradiction.
  - rewrite existsb_false_forall in E2. specialize (E2 u Hu).
    apply String.eqb_neq in E2. contradiction.
  - rewrite existsb_false_forall in E3. specialize (E3 u Hu).
    apply String.eqb_neq in E3. contradiction.
Qed.

Lemma user_by_id_new_account ud w s :
  user_by_id (next_id (map Users.id (users s)))
    (set_users (users s ++ [new_account ud w s]) s)
  = Some (new_account ud w s).
Proof.
  unfold user_by_id, set_users. cbn. rewrite find_app_last.
  rewrite find_none_forall.
  - cbn. rewrite Z.eqb_refl. reflexivity.
  - intros x Hx. apply Z.eqb_neq. intros Heq.
    apply (next_id_not_in (map Users.id (users s))). rewrite <- Heq. apply in_map, Hx.
Qed.

Lemma register_user_outcome ud w s :
  store_faults w = None ->
  (exists u, In u (users s)
             /\ taken (uc_username ud) (uc_email ud) (generate_api_key w) u)
  /\ serve (register_user ud) w s = (inl conflict, s)
  \/ (forall u, In u (users s)
                -> ~ taken (uc_username ud) (uc_email ud) (generate_api_key w) u)
     /\ serve (register_user ud) w s
        = (inr (user_response (new_account ud w s)),
           set_users (users s ++ [new_account ud w s]) s).
Proof.
  intros Hf. rewrite register_user_run by exact Hf.
  destruct (insert_user_result (uc_username ud) (uc_email ud)
              (hash_password w (uc_password ud)) (generate_api_key w) "Basic" 10 s)
    as [[Hex [msg ->]]|[Hno ->]].
  - left. split; [exact Hex|reflexivity].
  - right. split; [exact Hno|].
    change (Users.Row _ _ _ _ _ _ _ _) with (new_account ud w s).
    rewrite user_by_id_new_account. reflexivity.
Qed.

(** X1: a registration whose username, email and drawn api key are held
    by no account succeeds: it appends exactly one account row, Basic
    with 10 generations, no expiry, the digest of the password (not the
    password) and the drawn api key, under an id greater than every
    existing id; the response describes that row; the other rows and
    the other tables are untouched. *)
Theorem register_creates_basic_account ud w s :
  store_faults w = None ->
  (forall u, In u (users s)
             -> ~ taken (uc_username ud) (uc_email ud) (generate_api_key w) u) ->
  exists row,
    serve (register_user ud) w s = (inr (user_response row), set_users (users s ++ [row]) s)
    /\ Users.username row = uc_username ud
    /\ Users.email row = uc_email ud
    /\ Users.password_hash row = sha256_hexdigest w (uc_password ud)
    /\ Users.api_key row = uuid4 w
    /\ Users.subscription_tier row = "Basic"
    /\ Users.subscription_expiry row = None
    /\ Users.daily_generations_left row = 10
    /\ (forall u, In u (users s) -> Users.id u < Users.id row)
    /\ voices (serve (register_user ud) w s).2 = voices s
    /\ audio_history (serve (register_user ud) w s).2 = audio_history s
    /\ payments (serve (register_user ud) w s).2 = payments s.
Proof.
  intros Hf Hfree.
  destruct (register_user_outcome ud w s Hf) as [[(u & Hu & Ht) _]|[_ Hrun]].
  { exfalso. exact (Hfree u Hu Ht). }
  exists (new_account ud w s). rewrite Hrun. cbn. repeat split.
  intros u Hu. apply next_id_fresh, in_map, Hu.
Qed.

Lemma register_creates_basic_account_witness :
  exists row,
    serve (register_user eve_signup) demo_world demo_db
    = (inr (user_response row), set_users (users demo_db ++ [row]) demo_db)
    /\ Users.username row = "eve"
    /\ Users.email row = "eve@example.org"
    /\ Users.password_hash row = "sha256:pw-eve"
    /\ Users.api_key row = "3f2b8c1e-6d4a-4f0b-9a57-0c1d2e3f4a5b"
    /\ Users.subscription_tier row = "Basic"
    /\ Users.subscription_expiry row = None
    /\ Users.daily_generations_left row = 10
    /\ (forall u, In u (users demo_db) -> Users.id u < Users.id row)
    /\ voices (serve (register_user eve_signup) demo_world demo_db).2 = voices demo_db
    /\ audio_history (serve (register_user eve_signup) demo_world demo_db).2
       = audio_history demo_db
    /\ payments (serve (register_user eve_signup) demo_world demo_db).2 = payments demo_db.
Proof.
  apply (register_creates_basic_account eve_signup demo_world demo_db); [reflexivity|].
  intros u Hu Ht. cbn in Hu. unfold taken in Ht.
  destruct Hu as [<-|[<-|[<-|[]]]]; cbn in Ht; destruct Ht as [H|[H|H]]; discriminate H.
Defined.

(** X2: with the store answering, a registration is answered by the 400
    error "Username or email already exists" exactly when some account
    holds the username, the email or the api key that was drawn (a
    collision of the api key is reported under the same message); then
    the store is unchanged, and in every other case the registration
    succeeds. *)
Theorem register_conflict_exactly_when_taken ud w s :
  store_faults w = None ->
  ((serve (register_user ud) w s).1 = inl conflict
   <-> exists u, In u (users s) /\ taken (uc_username ud) (uc_email ud) (uuid4 w) u)
  /\ ((serve (register_user ud) w s).1 = inl conflict -> (serve (register_user ud) w s).2 = s)
  /\ ((serve (register_user ud) w s).1 <> inl conflict
      -> succeeded (serve (register_user ud) w s).1 = true).
Proof.
  intros Hf.
  destruct (register_user_outcome ud w s Hf) as [[Hex ->]|[Hno ->]]; cbn.
  - split; [tauto|]. split; [reflexivity|]. intros H. contradiction.
  - split; [|split; [discriminate|reflexivity]].
    split; [discriminate|].
    intros (u & Hu & Ht). exfalso. exact (Hno u Hu Ht).
Qed.

Lemma register_conflict_exactly_when_taken_witness :
  ((serve (register_user eve_signup) replayed_uuid_world demo_db).1 = inl conflict
   <-> exists u, In u (users demo_db)
                 /\ taken "eve" "eve@example.org" "1b9d6bcd-bbfd-4b2d-9b5d-ab8dfbbd4bed" u)
  /\ ((serve (register_user eve_signup) replayed_uuid_world demo_db).1 = inl conflict
      -> (serve (register_user eve_signup) replayed_uuid_world demo_db).2 = demo_db)
  /\ ((serve (register_user eve_signup) replayed_uuid_world demo_db).1 <> inl conflict
      -> succeeded (serve (register_user eve_signup) replayed_uuid_world demo_db).1 = true).
Proof.
  apply (register_conflict_exactly_when_taken eve_signup replayed_uuid_world demo_db).
  reflexivity.
Defined.

(** ** Login *)

Arguments user_by_email : simpl never.

Lemma login_user_run ul w s :
  store_faults w = None ->
  serve (login_user ul) w s =
  (match user_by_email (ul_email ul) s with
   | Some u =>
       if verify_password w (Users.password_hash u) (ul_password ul)
       then inr (user_response u)
       else inl invalid_login
   | None => inl invalid_login
   end, s).
Proof.
  intros Hf. unfold serve, login_user. rewrite Hf. run_monad.
  destruct (user_by_email (ul_email ul) s) as [u|]; [|reflexivity].
  destruct (verify_password w _ _); reflexivity.
Qed.

Lemma user_by_email_new_account ud w s :
  (forall u, In u (users s) -> Users.email u <> uc_email ud) ->
  user_by_email (uc_email ud) (set_users (users s ++ [new_account ud w s]) s)
  = Some (new_account ud w s).
Proof.
  intros Hno. unfold user_by_email, set_users. cbn. rewrite find_app_last.
  rewrite find_none_forall.
  - cbn. rewrite String.eqb_refl. reflexivity.
  - intros x Hx. apply String.eqb_neq, Hno, Hx.
Qed.

(** X3: registration and login round trip. After a successful
    registration, a login with the same email and password succeeds and
    returns the account exactly as the registration returned it; a
    login with that email and a password of another digest is answered
    by 401. Neither login changes the store. *)
Theorem register_then_login ud w w' s :
  store_faults w = None ->
  store_faults w' = None ->
  (forall p, sha256_hexdigest w' p = sha256_hexdigest w p) ->
  (forall u, In u (users s)
             -> ~ taken (uc_username ud) (uc_email ud) (generate_api_key w) u) ->
  succeeded (serve (register_user ud) w s).1 = true
  /\ serve (login_user {| ul_email := uc_email ud; ul_password := uc_password ud |}) w'
       (serve (register_user ud) w s).2
     = ((serve (register_user ud) w s).1, (serve (register_user ud) w s).2)
  /\ forall p,
       sha256_hexdigest w p <> sha256_hexdigest w (uc_password ud) ->
       serve (login_user {| ul_email := uc_email ud; ul_password := p |}) w'
         (serve (register_user ud) w s).2
       = (inl invalid_login, (serve (register_user ud) w s).2).
Proof.
  intros Hf Hf' Hsha Hfree.
  destruct (register_user_outcome ud w s Hf) as [[(u & Hu & Ht) _]|[_ Hrun]].
  { exfalso. exact (Hfree u Hu Ht). }
  rewrite Hrun. cbn [fst snd].
  assert (Hmail : user_by_email (uc_email ud)
                    (set_users (users s ++ [new_account ud w s]) s)
                  = Some (new_account ud w s)).
  { apply user_by_email_new_account. intros u Hu He.
    apply (Hfree u Hu). right. left. exact He. }
  split; [reflexivity|]. split.
  - rewrite login_user_run by exact Hf'. cbn. rewrite Hmail.
    unfold verify_password, hash_password. cbn. rewrite Hsha, String.eqb_refl. reflexivity.
  - intros p Hp. rewrite login_user_run by exact Hf'. cbn. rewrite Hmail.
    unfold verify_password, hash_password. cbn. rewrite Hsha.
    unfold hash_password.
    destruct (String.eqb_spec (sha256_hexdigest w (uc_password ud)) (sha256_hexdigest w p));
      [congruence|reflexivity].
Qed.

Lemma register_then_login_witness :
  succeeded (serve (register_user eve_signup) demo_world demo_db).1 = true
  /\ serve (login_user eve_login) later_world (serve (register_user eve_signup) demo_world demo_db).2
     = ((serve (register_user eve_signup) demo_world demo_db).1,
        (serve (register_user eve_signup) demo_world demo_db).2)
  /\ forall p,
       sha256_hexdigest demo_world p <> sha256_hexdigest demo_world "pw-eve" ->
       serve (login_user {| ul_email := "eve@example.org"; ul_password := p |}) later_world
         (serve (register_user eve_signup) demo_world demo_db).2
       = (inl invalid_login, (serve (register_user eve_signup) demo_world demo_db).2).
Proof.
  apply (register_then_login eve_signup demo_world later_world demo_db);
    [reflexivity|reflexivity|intros p; reflexivity|].
  intros u Hu Ht. cbn in Hu. unfold taken in Ht.
  destruct Hu as [<-|[<-|[<-|[]]]]; cbn in Ht; destruct Ht as [H|[H|H]]; discriminate H.
Defined.

(** X4: a login succeeds whenever the email belongs to an account and
    the digest of the password is the stored one, whatever the tier and
    the allowance of the account (the quota check is not part of it);
    every failed login, unknown email or wrong password alike, is the
    same 401 error. *)
Theorem login_is_quota_free_and_uniform ul w s :
  store_faults w = None ->
  (forall u,
      user_by_email (ul_email ul) s = Some u ->
      Users.password_hash u = sha256_hexdigest w (ul_password ul) ->
      serve (login_user ul) w s = (inr (user_response u), s))
  /\ (succeeded (serve (login_user ul) w s).1 = false ->
      serve (login_user ul) w s = (inl invalid_login, s))
  /\ (user_by_email (ul_email ul) s = None ->
      serve (login_user ul) w s = (inl invalid_login, s)).
Proof.
  intros Hf. rewrite login_user_run by exact Hf. repeat split.
  - intros u -> Hh. unfold verify_password. rewrite Hh, String.eqb_refl. reflexivity.
  - destruct (user_by_email (ul_email ul) s) as [u|]; [|reflexivity].
    destruct (verify_password w _ _); [discriminate|reflexivity].
  - intros ->. reflexivity.
Qed.

Lemma login_is_quota_free_and_uniform_witness :
  serve (login_user cyd_login) demo_world demo_db = (inr (user_response cyd), demo_db)
  /\ serve (get_user_history "key-cyd") demo_world demo_db = (inl quota_exhausted, demo_db)
  /\ serve (login_user {| ul_email := "zed@example.org"; ul_password := "pw" |})
       demo_world demo_db
     = (inl invalid_login, demo_db)
  /\ serve (login_user {| ul_email := "cyd@example.org"; ul_password := "guess" |})
       demo_world demo_db
     = (inl invalid_login, demo_db).
Proof.
  split; [|split; [|split]].
  - apply (login_is_quota_free_and_uniform cyd_login demo_world demo_db); reflexivity.
  - reflexivity.
  - apply (login_is_quota_free_and_uniform
             {| ul_email := "zed@example.org"; ul_password := "pw" |} demo_world demo_db);
      reflexivity.
  - apply (proj1 (proj2 (login_is_quota_free_and_uniform
             {| ul_email := "cyd@example.org"; ul_password := "guess" |} demo_world demo_db
             eq_refl))).
    reflexivity.
Defined.

(** ** Handlers that only read *)

Lemma read_only_ret {A} (a : A) : read_only (ret a).
Proof. intros c. reflexivity. Qed.

Lemma read_only_raise {A} (e : exn) : read_only (@raise A e).
Proof. intros c. reflexivity. Qed.

Lemma read_only_bind {A B} (m : M A) (k : A -> M B) :
  read_only m -> (forall a, read_only (k a)) -> read_only (bind m k).
Proof.
  intros Hm Hk c. unfold bind. specialize (Hm c).
  destruct (m c) as [[e|a] c']; cbn in *; [exact Hm|].
  rewrite Hk. exact Hm.
Qed.

Lemma read_only_tick : read_only tick.
Proof. intros c. unfold tick. destruct (fault_in c) as [[|n]|]; reflexivity. Qed.

Lemma read_only_query {A} (f : db -> A) : read_only (query f).
Proof.
  unfold query. apply read_only_bind; [apply read_only_tick|].
  intros _ c. reflexivity.
Qed.

Lemma read_only_close : read_only close.
Proof. intros c. reflexivity. Qed.

Lemma read_only_connect : read_only get_db_connection.
Proof. intros c. reflexivity. Qed.

Lemma read_only_get_current_user k : read_only (get_current_user_by_api_key k).
Proof.
  unfold get_current_user_by_api_key.
  apply read_only_bind; [apply read_only_connect|intros _].
  apply read_only_bind; [apply read_only_query|intros user].
  apply read_only_bind; [apply read_only_close|intros _].
  destruct user as [u|]; [|apply read_only_raise].
  destruct (_ && _); [apply read_only_raise|apply read_only_ret].
Qed.

Lemma read_only_serve {A} (h : world -> M A) w s :
  read_only (h w) -> (serve h w s).2 = s.
Proof.
  intros Hr. unfold serve. specialize (Hr (Conn s s (store_faults w))).
  destruct (h w _) as [r c]. exact Hr.
Qed.

Lemma read_only_login_user ul w : read_only (login_user ul w).
Proof.
  unfold login_user.
  apply read_only_bind; [apply read_only_connect|intros _].
  apply read_only_bind; [apply read_only_query|intros user].
  apply read_only_bind; [apply read_only_close|intros _].
  destruct user as [u|]; [|apply read_only_raise].
  destruct (verify_password w _ _); [apply read_only_ret|apply read_only_raise].
Qed.

Lemma read_only_list_voices key w : read_only (list_voices key w).
Proof.
  unfold list_voices.
  apply read_only_bind; [apply read_only_connect|intros _].
  apply read_only_bind.
  - destruct key as [k|]; [|apply read_only_ret].
    destruct (String.eqb k ""); [apply read_only_ret|].
    apply read_only_bind; [apply read_only_query|intros u; apply read_only_ret].
  - intros uid.
    apply read_only_bind; [apply read_only_query|intros vs].
    apply read_only_bind; [apply read_only_close|intros _; apply read_only_ret].
Qed.

Lemma read_only_get_user_history k w : read_only (get_user_history k w).
Proof.
  unfold get_user_history.
  apply read_only_bind; [apply read_only_get_current_user|intros u].
  apply read_only_bind; [apply read_only_connect|intros _].
  apply read_only_bind; [apply read_only_query|intros h].
  apply read_only_bind; [apply read_only_close|intros _; apply read_only_ret].
Qed.

(** X5: the authentication step, the login, the voice listing and the
    history fetch never change what is persisted, whatever they answer
    and whatever the store does while they run. *)
Theorem reading_handlers_never_write w s :
  (forall k, (serve (fun _ => get_current_user_by_api_key k) w s).2 = s)
  /\ (forall ul, (serve (login_user ul) w s).2 = s)
  /\ (forall key, (serve (list_voices key) w s).2 = s)
  /\ (forall k, (serve (get_user_history k) w s).2 = s).
Proof.
  split; [|split; [|split]].
  - intros k. apply read_only_serve, read_only_get_current_user.
  - intros ul. apply read_only_serve, read_only_login_user.
  - intros key. apply read_only_serve, read_only_list_voices.
  - intros k. apply read_only_serve, read_only_get_user_history.
Qed.

(** ** Generation: what a request may leave behind *)

(** Whatever the store does, a generation request persists nothing, or
    the quota step alone, or the quota step and one history row; the
    last two only for an account that passed the quota check and a
    voice that exists, the last one only when the engine did not
    raise. *)
Lemma generate_speech_outcomes rq w s :
  (serve (generate_speech rq) w s).2 = s
  \/ exists u v,
       authorize (user_api_key rq) s = inr u
       /\ voice_by_id (voice_id rq) s = Some v
       /\ ((serve (generate_speech rq) w s).2 = consumed u s
           \/ tts_engine w (text_to_speak rq) (Voices.voice_params v) (speed rq) = None
              /\ (serve (generate_speech rq) w s).2
                 = add_history (new_history rq w u (consumed u s)) (consumed u s)).
Proof.
  destruct (store_faults w) as [n|] eqn:Hw.
  - unfold serve, generate_speech, get_current_user_by_api_key. rewrite Hw.
    unfold authorize, consumed, is_basic, add_history, new_history.
    do 7 (try destruct n as [|n]); run_monad;
      repeat match goal with
             | |- context [match user_by_api_key ?k ?d with _ => _ end] =>
                 destruct (user_by_api_key k d) as [u|] eqn:?; cbn
             | |- context [match voice_by_id ?k ?d with _ => _ end] =>
                 destruct (voice_by_id k d) eqn:?; cbn
             | |- context [String.eqb (Users.subscription_tier ?u) "Basic"] =>
                 destruct (String.eqb (Users.subscription_tier u) "Basic") eqn:?; cbn
             | |- context [Z.leb ?a ?b] => destruct (Z.leb a b) eqn:?; cbn
             | |- context [tts_engine ?a ?b ?c ?d] => destruct (tts_engine a b c d) eqn:?; cbn
             end;
      try (left; reflexivity);
      right; eexists; eexists; (split; [reflexivity|]); (split; [reflexivity|]);
      repeat match goal with
             | H : String.eqb (Users.subscription_tier _) "Basic" = _ |- _ => rewrite H
             end;
      first [ left; reflexivity | right; split; [assumption|reflexivity] ].
  - rewrite generate_speech_run by exact Hw.
    destruct (authorize (user_api_key rq) s) as [e|u] eqn:Ha; [left; reflexivity|].
    destruct (voice_by_id (voice_id rq) s) as [v|] eqn:Hv; [|left; reflexivity].
    right. exists u, v. split; [reflexivity|]. split; [reflexivity|].
    destruct (tts_engine w _ _ _) eqn:He; [left; reflexivity|].
    right. split; reflexivity.
Qed.



(** X7: a generation request of an account that passed the quota check,
    for an existing voice and with the engine not raising, appends
    exactly one history row: the caller's id, the text as it was sent
    (the engine is the one that gets the text with the emotion prefix),
    the voice id, the settings and the path "generated_audio/<uuid>.wav",
    which is also the file answered. A Basic caller has one generation
    less, any other caller the same allowance; voices and payments are
    untouched. *)
Theorem generation_records_one_row rq w s u v :
  store_faults w = None ->
  authorize (user_api_key rq) s = inr u ->
  voice_by_id (voice_id rq) s = Some v ->
  tts_engine w (text_to_speak rq) (Voices.voice_params v) (speed rq) = None ->
  exists row,
    serve (generate_speech rq) w s
    = (inr {| fr_path := AudioHistory.audio_file_path row; fr_media_type := "audio/wav";
              fr_filename := uuid4 w +:+ ".wav" |},
       add_history row (consumed u s))
    /\ audio_history (serve (generate_speech rq) w s).2 = (audio_history s ++ [row])%list
    /\ AudioHistory.user_id row = Users.id u
    /\ AudioHistory.text_input row = text rq
    /\ AudioHistory.voice_id row = voice_id rq
    /\ AudioHistory.generated_at row = current_timestamp w
    /\ AudioHistory.audio_file_path row = "generated_audio/" +:+ (uuid4 w +:+ ".wav")
    /\ AudioHistory.settings_json row = Settings (speed rq) (pitch rq) (emotion rq)
    /\ (forall r, In r (audio_history s) -> AudioHistory.id r < AudioHistory.id row)
    /\ allowance_of (user_api_key rq) (serve (generate_speech rq) w s).2
       = Some (if is_basic u then Users.daily_generations_left u - 1
               else Users.daily_generations_left u)
    /\ voices (serve (generate_speech rq) w s).2 = voices s
    /\ payments (serve (generate_speech rq) w s).2 = payments s.
Proof.
  intros Hf Ha Hv He.
  assert (Hh : audio_history (consumed u s) = audio_history s)
    by (unfold consumed; destruct (is_basic u); reflexivity).
  assert (Hrow : new_history rq w u (consumed u s) = new_history rq w u s)
    by (unfold new_history; rewrite Hh; reflexivity).
  assert (Hrun : serve (generate_speech rq) w s
                 = (inr {| fr_path := AudioHistory.audio_file_path (new_history rq w u s);
                           fr_media_type := "audio/wav";
                           fr_filename := uuid4 w +:+ ".wav" |},
                    add_history (new_history rq w u s) (consumed u s))).
  { rewrite generate_speech_run by exact Hf. rewrite Ha, Hv, He, <- Hrow. reflexivity. }
  exists (new_history rq w u s). rewrite Hrun. cbn.
  split; [reflexivity|]. split; [rewrite Hh; reflexivity|].
  do 6 (split; [reflexivity|]).
  split; [intros r Hr; apply next_id_fresh, in_map, Hr|].
  split; [|split].
  - unfold allowance_of, user_by_api_key. cbn.
    change (find _ (users (consumed u s)))
      with (user_by_api_key (user_api_key rq) (consumed u s)).
    rewrite (user_by_api_key_consumed _ _ _ (authorize_some _ _ _ Ha)).
    destruct (is_basic u); reflexivity.
  - unfold consumed. destruct (is_basic u); reflexivity.
  - unfold consumed. destruct (is_basic u); reflexivity.
Qed.

Lemma generation_records_one_row_witness :
  exists row,
    serve (generate_speech ann_request) demo_world demo_db
    = (inr {| fr_path := AudioHistory.audio_file_path row; fr_media_type := "audio/wav";
              fr_filename := uuid4 demo_world +:+ ".wav" |},
       add_history row (consumed ann demo_db))
    /\ audio_history (serve (generate_speech ann_request) demo_world demo_db).2
       = (audio_history demo_db ++ [row])%list
    /\ AudioHistory.user_id row = 1
    /\ AudioHistory.text_input row = "hello"
    /\ AudioHistory.voice_id row = 1
    /\ AudioHistory.generated_at row = 1762214400
    /\ AudioHistory.audio_file_path row
       = "generated_audio/" +:+ (uuid4 demo_world +:+ ".wav")
    /\ AudioHistory.settings_json row = Settings (1 # 1) (1 # 1) "happy"
    /\ (forall r, In r (audio_history demo_db) -> AudioHistory.id r < AudioHistory.id row)
    /\ allowance_of "key-ann" (serve (generate_speech ann_request) demo_world demo_db).2
       = Some 9
    /\ voices (serve (generate_speech ann_request) demo_world demo_db).2 = voices demo_db
    /\ payments (serve (generate_speech ann_request) demo_world demo_db).2 = payments demo_db.
Proof.
  apply (generation_records_one_row ann_request demo_world demo_db ann
           (Voices.Row 1 None "Nova (Neutral Male)" "preset"
              [("tts_engine_voice_id", PInt 0)] "en-US" "default"
              ["neutral"; "happy"; "sad"] None));
    reflexivity.
Defined.

(** ** Cloning *)

Lemma voice_by_id_new_clone rq w u s :
  voice_by_id (next_id (map Voices.id (voices s))) (add_voice (new_clone rq w u s) s)
  = Some (new_clone rq w u s).
Proof.
  unfold voice_by_id, add_voice. cbn. rewrite find_app_last.
  rewrite find_none_forall.
  - cbn. rewrite Z.eqb_refl. reflexivity.
  - intros x Hx. apply Z.eqb_neq. intros Heq.
    apply (next_id_not_in (map Voices.id (voices s))). rewrite <- Heq. apply in_map, Hx.
Qed.

Lemma clone_voice_run rq w s :
  store_faults w = None ->
  serve (clone_voice rq) w s =
  match authorize (cl_user_api_key rq) s with
  | inl e => (inl e, s)
  | inr u =>
      if may_clone u
      then (inr (voice_response (new_clone rq w u s)), add_voice (new_clone rq w u s) s)
      else (inl tier_restricted, s)
  end.
Proof.
  intros Hf. unfold serve, clone_voice. rewrite Hf. unfold bind at 1.
  rewrite get_current_user_run.
  destruct (authorize (cl_user_api_key rq) s) as [e|u]; [reflexivity|].
  unfold may_clone. destruct (_ || _); [|reflexivity].
  run_monad. unfold insert_voice. cbn.
  change (Db (users s) (voices s ++ [_]) (audio_history s) (payments s))
    with (add_voice (new_clone rq w u s) s).
  rewrite voice_by_id_new_clone. reflexivity.
Qed.





Lemma filter_app_last {A} (P : A -> bool) (l : list A) (x : A) :
  List.filter P (l ++ [x]) = (List.filter P l ++ (if P x then [x] else []))%list.
Proof. rewrite List.filter_app. reflexivity. Qed.




(** ** Generation does not look at who owns the voice *)



(** ** The history *)

Lemma get_user_history_run k w s :
  store_faults w = None ->
  serve (get_user_history k) w s =
  match authorize k s with
  | inl e => (inl e, s)
  | inr u => (inr (history_of (Users.id u) s), s)
  end.
Proof.
  intros Hf. unfold serve, get_user_history. rewrite Hf. unfold bind at 1.
  rewrite get_current_user_run.
  destruct (authorize k s) as [e|u]; reflexivity.
Qed.




Lemma history_of_spec i s :
  history_of i s
  = omap (fun ah => match voice_by_id (AudioHistory.voice_id ah) s with
                    | Some v => Some (history_item ah v)
                    | None => None
                    end)
      (merge_sort newer_first
         (List.filter (fun ah => Z.eqb (AudioHistory.user_id ah) i) (audio_history s))).
Proof. reflexivity. Qed.


Lemma history_of_in i s it :
  In it (history_of i s)
  <-> exists ah v,
        In ah (audio_history s)
        /\ AudioHistory.user_id ah = i
        /\ voice_by_id (AudioHistory.voice_id ah) s = Some v
        /\ it = history_item ah v.
Proof.
  rewrite history_of_spec, <- list_elem_of_In, list_elem_of_omap. split.
  - intros (ah & Hah & Hit).
    rewrite merge_sort_Permutation in Hah. apply list_elem_of_In, filter_In in Hah as [Hin Hi].
    apply Z.eqb_eq in Hi.
    destruct (voice_by_id (AudioHistory.voice_id ah) s) as [v|] eqn:Hv; [|discriminate].
    injection Hit as <-. exists ah, v. repeat split; assumption.
  - intros (ah & v & Hin & Hi & Hv & ->). exists ah. split.
    + rewrite merge_sort_Permutation. apply list_elem_of_In, filter_In.
      split; [exact Hin|apply Z.eqb_eq, Hi].
    + rewrite Hv. reflexivity.
Qed.




(** X13: generation and history together. After a successful generation
    the caller's history holds the item of that generation (the text as
    sent, the name of the voice, the path of the file), provided the
    caller still passes the quota check: any tier but Basic, or a Basic
    account that had at least two generations left. A Basic account
    that spent its last generation is refused its history. *)
Theorem generation_shows_in_history rq w w' s u v :
  store_faults w = None ->
  store_faults w' = None ->
  authorize (user_api_key rq) s = inr u ->
  voice_by_id (voice_id rq) s = Some v ->
  tts_engine w (text_to_speak rq) (Voices.voice_params v) (speed rq) = None ->
  (is_basic u = false \/ 2 <= Users.daily_generations_left u ->
   exists items it,
     serve (get_user_history (user_api_key rq)) w' (serve (generate_speech rq) w s).2
     = (inr items, (serve (generate_speech rq) w s).2)
     /\ In it items
     /\ hi_text_input it = text rq
     /\ hi_voice_name it = Voices.voice_name v
     /\ hi_audio_file_path it = "generated_audio/" +:+ (uuid4 w +:+ ".wav")
     /\ hi_generated_at it = current_timestamp w
     /\ hi_settings it = Settings (speed rq) (pitch rq) (emotion rq))
  /\ (is_basic u = true -> Users.daily_generations_left u = 1 ->
      serve (get_user_history (user_api_key rq)) w' (serve (generate_speech rq) w s).2
      = (inl quota_exhausted, (serve (generate_speech rq) w s).2)).
Proof.
  intros Hf Hf' Ha Hv He.
  pose proof (authorize_some _ _ _ Ha) as Hu.
  rewrite generate_speech_run by exact Hf. rewrite Ha, Hv, He. cbn [fst snd].
  set (row := AudioHistory.Row _ _ _ _ _ _ _).
  set (s1 := Db _ _ _ _).
  assert (Hu1 : user_by_api_key (user_api_key rq) s1
                = Some (if is_basic u then use_generation u else u)).
  { change (user_by_api_key (user_api_key rq) s1)
      with (user_by_api_key (user_api_key rq) (consumed u s)).
    apply user_by_api_key_consumed, Hu. }
  assert (Hv1 : voice_by_id (voice_id rq) s1 = Some v).
  { change (voice_by_id (voice_id rq) s1) with (voice_by_id (voice_id rq) (consumed u s)).
    unfold consumed. destruct (is_basic u); exact Hv. }
  split.
  - intros Hallow.
    assert (Ha1 : authorize (user_api_key rq) s1
                  = inr (if is_basic u then use_generation u else u)).
    { unfold authorize. rewrite Hu1.
      destruct (is_basic u) eqn:Hb.
      - replace (is_basic (use_generation u)) with true by (symmetry; exact Hb).
        cbn. destruct Hallow as [H|H]; [discriminate|].
        destruct (Z.leb_spec (Users.daily_generations_left u - 1) 0); [lia|reflexivity].
      - rewrite Hb. reflexivity. }
    rewrite get_user_history_run by exact Hf'. rewrite Ha1.
    eexists _, (history_item row v). split; [reflexivity|].
    split; [|repeat split].
    apply history_of_in. exists row, v. repeat split.
    + cbn. apply in_or_app. right. left. reflexivity.
    + cbn. destruct (is_basic u); reflexivity.
    + exact Hv1.
  - intros Hb Hone. rewrite get_user_history_run by exact Hf'.
    unfold authorize. rewrite Hu1, Hb.
    replace (is_basic (use_generation u)) with true by (symmetry; exact Hb).
    cbn. destruct (Z.leb_spec (Users.daily_generations_left u - 1) 0); [reflexivity|lia].
Qed.

Lemma generation_shows_in_history_witness :
  (exists items it,
     serve (get_user_history "key-ann") later_world
       (serve (generate_speech ann_request) demo_world demo_db).2
     = (inr items, (serve (generate_speech ann_request) demo_world demo_db).2)
     /\ In it items
     /\ hi_text_input it = "hello"
     /\ hi_voice_name it = "Nova (Neutral Male)"
     /\ hi_audio_file_path it = "generated_audio/" +:+ (uuid4 demo_world +:+ ".wav")
     /\ hi_generated_at it = 1762214400
     /\ hi_settings it = Settings (1 # 1) (1 # 1) "happy")
  /\ serve (get_user_history "key-ann") later_world
       (serve (generate_speech ann_request) demo_world last_one_db).2
     = (inl quota_exhausted, (serve (generate_speech ann_request) demo_world last_one_db).2).
Proof.
  split.
  - apply (generation_shows_in_history ann_request demo_world later_world demo_db ann
             (Voices.Row 1 None "Nova (Neutral Male)" "preset"
                [("tts_engine_voice_id", PInt 0)] "en-US" "default"
                ["neutral"; "happy"; "sad"] None));
      first [reflexivity | right; cbn; lia].
  - apply (generation_shows_in_history ann_request demo_world later_world last_one_db
             (Users.Row 1 "ann" "ann@example.org" "sha256:pw-ann" "Basic" None "key-ann" 1)
             (Voices.Row 1 None "Nova (Neutral Male)" "preset"
                [("tts_engine_voice_id", PInt 0)] "en-US" "default"
                ["neutral"; "happy"; "sad"] None));
      reflexivity.
Defined.

(** ** More on the subscription transition *)

Lemma allowance_table_positive tier : 10 <= allowance_table tier.
Proof.
  unfold allowance_table.
  destruct (String.eqb tier "Basic"); [lia|].
  destruct (String.eqb tier "Premium"); [lia|].
  destruct (String.eqb tier "Ultimate"); lia.
Qed.

Lemma user_by_api_key_subscribed rq w s k :
  user_by_api_key k (subscribed rq w s)
  = option_map (fun u => if Z.eqb (Users.id u) (sr_user_id rq)
                         then set_subscription (sr_tier rq) (date_today w + 30)
                                (allowance_table (sr_tier rq)) u
                         else u)
      (user_by_api_key k s).
Proof.
  unfold user_by_api_key, subscribed. cbn. rewrite generations_map_table.
  apply find_map_stable. intros x.
  destruct (Z.eqb (Users.id x) (sr_user_id rq)); reflexivity.
Qed.

(** X14: a successful tier change, whatever the store did on the way,
    rewrites only rows whose id is the requested one: every other
    account row is kept as it is, no row is added or removed, and
    usernames, emails, password digests and api keys of all rows, the
    changed one included, stay what they were, so every api key
    resolves to the same account as before. *)
Theorem tier_change_touches_one_account rq w s r s' :
  serve (handle_subscription rq) w s = (inr r, s') ->
  length (users s') = length (users s)
  /\ (forall u, Users.id u <> sr_user_id rq -> (In u (users s') <-> In u (users s)))
  /\ map Users.id (users s') = map Users.id (users s)
  /\ map Users.username (users s') = map Users.username (users s)
  /\ map Users.email (users s') = map Users.email (users s)
  /\ map Users.password_hash (users s') = map Users.password_hash (users s)
  /\ map Users.api_key (users s') = map Users.api_key (users s)
  /\ (forall k, option_map Users.id (user_by_api_key k s')
                = option_map Users.id (user_by_api_key k s)).
Proof.
  intros Hrun. apply handle_subscription_success in Hrun as (u0 & _ & _ & _ & ->).
  set (g := fun u => if Z.eqb (Users.id u) (sr_user_id rq)
                     then set_subscription (sr_tier rq) (date_today w + 30)
                            (default 10 (generations_map !! sr_tier rq)) u
                     else u).
  change (users (subscribed rq w s)) with (map g (users s)).
  assert (Hg : forall u, Users.id u <> sr_user_id rq -> g u = u).
  { intros u Hu. unfold g. destruct (Z.eqb_spec (Users.id u) (sr_user_id rq));
      [contradiction|reflexivity]. }
  assert (Hgid : forall u, Users.id (g u) = Users.id u).
  { intros u. unfold g. destruct (Z.eqb (Users.id u) (sr_user_id rq)); reflexivity. }
  split; [apply length_map|]. split.
  - intros u Hu. rewrite in_map_iff. split.
    + intros (x & Hx & Hin). assert (Users.id x <> sr_user_id rq).
      { rewrite <- Hgid, Hx. exact Hu. }
      rewrite (Hg x) in Hx by assumption. congruence.
    + intros Hin. exists u. split; [apply Hg, Hu|exact Hin].
  - repeat split; try (rewrite map_map; apply map_ext; intros x; unfold g;
                       destruct (Z.eqb (Users.id x) (sr_user_id rq)); reflexivity).
    intros k. rewrite user_by_api_key_subscribed.
    destruct (user_by_api_key k s) as [x|]; [|reflexivity]. cbn.
    destruct (Z.eqb (Users.id x) (sr_user_id rq)); reflexivity.
Qed.

Lemma tier_change_touches_one_account_witness :
  length (users (subscribed ann_premium demo_world demo_db)) = length (users demo_db)
  /\ (forall u, Users.id u <> 1 ->
        (In u (users (subscribed ann_premium demo_world demo_db)) <-> In u (users demo_db)))
  /\ map Users.api_key (users (subscribed ann_premium demo_world demo_db))
     = map Users.api_key (users demo_db).
Proof.
  destruct (tier_change_touches_one_account ann_premium demo_world demo_db
              {| message := "Subscription to Premium successful!";
                 user := user_response (set_subscription "Premium" 739954 100 ann) |}
              (subscribed ann_premium demo_world demo_db) eq_refl)
    as (Hlen & Hother & _ & _ & _ & _ & Hkeys & _).
  split; [exact Hlen|]. split; [exact Hother|exact Hkeys].
Defined.

Lemma authorize_after_tier_change rq w s k u :
  user_by_api_key k s = Some u ->
  Users.id u = sr_user_id rq ->
  user_by_api_key k (subscribed rq w s)
  = Some (set_subscription (sr_tier rq) (date_today w + 30) (allowance_table (sr_tier rq)) u)
  /\ authorize k (subscribed rq w s)
     = inr (set_subscription (sr_tier rq) (date_today w + 30)
              (allowance_table (sr_tier rq)) u).
Proof.
  intros Hu Hid.
  pose proof (allowance_table_positive (sr_tier rq)) as Hpos.
  assert (Hu' : user_by_api_key k (subscribed rq w s)
                = Some (set_subscription (sr_tier rq) (date_today w + 30)
                          (allowance_table (sr_tier rq)) u)).
  { rewrite user_by_api_key_subscribed, Hu. cbn. rewrite Hid, Z.eqb_refl. reflexivity. }
  split; [exact Hu'|].
  unfold authorize. rewrite Hu'. unfold is_basic. cbn.
  destruct (Z.leb_spec (allowance_table (sr_tier rq)) 0); [lia|].
  rewrite andb_false_r. reflexivity.
Qed.

(** X15: after a successful tier change the holder of the account
    passes the quota check at once, whatever the allowance was before:
    every tier comes with at least 10 generations. In particular a
    Basic account with no generation left that subscribes to "Basic"
    again is charged 0 and has 10 generations. *)
Theorem tier_change_reopens_the_quota rq w s r s' k u :
  serve (handle_subscription rq) w s = (inr r, s') ->
  user_by_api_key k s = Some u ->
  Users.id u = sr_user_id rq ->
  authorize k s'
  = inr (set_subscription (sr_tier rq) (date_today w + 30) (allowance_table (sr_tier rq)) u)
  /\ 10 <= allowance_table (sr_tier rq)
  /\ exists p, payments s' = (payments s ++ [p])%list
               /\ Payments.amount p = price_table (sr_tier rq)
               /\ (sr_tier rq = "Basic" ->
                   Payments.amount p = 0 # 1 /\ allowance_of k s' = Some 10).
Proof.
  intros Hrun Hu Hid.
  apply handle_subscription_success in Hrun as (u0 & _ & _ & _ & ->).
  destruct (authorize_after_tier_change rq w s k u Hu Hid) as [Hu' Ha].
  split; [exact Ha|]. split; [apply allowance_table_positive|].
  exists (new_payment rq w s). split; [reflexivity|]. split; [apply prices_table|].
  intros Ht. split.
  - cbn. rewrite prices_table, Ht. reflexivity.
  - unfold allowance_of. rewrite Hu'. cbn. rewrite Ht. reflexivity.
Qed.

Lemma tier_change_reopens_the_quota_witness :
  authorize "key-cyd" demo_db = inl quota_exhausted
  /\ authorize "key-cyd" (serve (handle_subscription cyd_basic) demo_world demo_db).2
     = inr (set_subscription "Basic" 739954 10 cyd)
  /\ exists p, payments (serve (handle_subscription cyd_basic) demo_world demo_db).2
               = (payments demo_db ++ [p])%list
               /\ Payments.amount p = 0 # 1.
Proof.
  split; [reflexivity|].
  destruct (tier_change_reopens_the_quota cyd_basic demo_world demo_db
              {| message := "Subscription to Basic successful!";
                 user := user_response (set_subscription "Basic" 739954 10 cyd) |}
              (serve (handle_subscription cyd_basic) demo_world demo_db).2
              "key-cyd" cyd eq_refl eq_refl eq_refl)
    as (Hauth & _ & p & Hp & _ & Hbasic).
  split; [exact Hauth|].
  exists p. split; [exact Hp|]. apply Hbasic. reflexivity.
Defined.



(** ** What each writing handler may persist, whatever the store does *)

Lemma register_user_persists ud w s :
  (serve (register_user ud) w s).2 = s
  \/ (forall u, In u (users s)
                -> ~ taken (uc_username ud) (uc_email ud) (generate_api_key w) u)
     /\ (serve (register_user ud) w s).2 = set_users (users s ++ [new_account ud w s]) s.
Proof.
  destruct (store_faults w) as [n|] eqn:Hw.
  - unfold serve, register_user. rewrite Hw.
    destruct (insert_user_result (uc_username ud) (uc_email ud)
                (hash_password w (uc_password ud)) (generate_api_key w) "Basic" 10 s)
      as [[_ [msg Hi]]|[Hno Hi]];
      do 4 (try destruct n as [|n]); run_monad; rewrite ?Hi; cbn;
        try (left; reflexivity);
        change (Users.Row _ _ _ _ _ _ _ _) with (new_account ud w s);
        rewrite ?user_by_id_new_account; cbn;
        first [left; reflexivity | right; split; [exact Hno|reflexivity]].
  - destruct (register_user_outcome ud w s Hw) as [[_ ->]|[Hno ->]];
      [left; reflexivity|right; split; [exact Hno|reflexivity]].
Qed.

Lemma clone_voice_persists rq w s :
  (serve (clone_voice rq) w s).2 = s
  \/ exists u, authorize (cl_user_api_key rq) s = inr u
               /\ may_clone u = true
               /\ (serve (clone_voice rq) w s).2 = add_voice (new_clone rq w u s) s.
Proof.
  destruct (store_faults w) as [n|] eqn:Hw.
  - unfold serve, clone_voice, get_current_user_by_api_key. rewrite Hw.
    unfold authorize, is_basic, may_clone.
    do 5 (try destruct n as [|n]); run_monad;
      repeat match goal with
             | |- context [match user_by_api_key ?k s with _ => _ end] =>
                 destruct (user_by_api_key k s) as [u|] eqn:?; cbn
             | |- context [String.eqb (Users.subscription_tier ?u) ?t] =>
                 destruct (String.eqb (Users.subscription_tier u) t) eqn:?; cbn
             | |- context [Z.leb ?a ?b] => destruct (Z.leb a b) eqn:?; cbn
             end;
      try (left; reflexivity);
      unfold insert_voice; cbn;
      repeat match goal with
             | |- context [Db (users s) (voices s ++ [?v]) (audio_history s) (payments s)] =>
                 change (Db (users s) (voices s ++ [v]) (audio_history s) (payments s))
                   with (add_voice (new_clone rq w u s) s)
             end;
      rewrite ?voice_by_id_new_clone; cbn;
      try (left; reflexivity);
      right; eexists; (split; [reflexivity|]);
      repeat match goal with
             | H : String.eqb (Users.subscription_tier _) _ = _ |- _ => rewrite H
             end;
      (split; reflexivity).
  - rewrite clone_voice_run by exact Hw.
    destruct (authorize (cl_user_api_key rq) s) as [e|u] eqn:Ha; [left; reflexivity|].
    destruct (may_clone u) eqn:Hm; [|left; reflexivity].
    right. exists u. repeat split. exact Hm.
Qed.

Lemma handle_subscription_persists rq w s :
  (serve (handle_subscription rq) w s).2 = s
  \/ txn_collides w s = false
     /\ (serve (handle_subscription rq) w s).2 = subscribed rq w s.
Proof.
  destruct (store_faults w) as [n|] eqn:Hw.
  - unfold serve, handle_subscription, txn_collides. rewrite Hw.
    do 5 (try destruct n as [|n]); run_monad;
      unfold insert_payment, update_users_where_id, set_users; cbn;
      case_lookups s; try (left; reflexivity);
      change (Db (map _ (users s)) _ _ _) with (subscribed rq w s);
      try (right; split; reflexivity);
      match goal with H : user_by_id _ s = Some _ |- _ =>
        rewrite (user_by_id_subscribed rq w s _ H) end;
      right; split; reflexivity.
  - rewrite handle_subscription_run by exact Hw.
    destruct (user_by_id (sr_user_id rq) s); [|left; reflexivity].
    destruct (txn_collides w s); [left; reflexivity|right; split; reflexivity].
Qed.

Lemma init_db_persists w s :
  (serve (fun _ => init_db) w s).2 = s
  \/ has_preset s = false /\ (serve (fun _ => init_db) w s).2 = seeded s.
Proof.
  assert (Hp : Nat.eqb (length (List.filter is_preset (voices s))) 0 = negb (has_preset s)).
  { unfold has_preset. induction (voices s) as [|v l IH]; [reflexivity|].
    cbn. destruct (is_preset v); [reflexivity|exact IH]. }
  unfold serve, init_db.
  destruct (store_faults w) as [n|];
    [do 4 (try destruct n as [|n])|]; run_monad; rewrite ?Hp;
    destruct (has_preset s); cbn;
    first [left; reflexivity | right; split; reflexivity].
Qed.

(** ** The unique columns stay unique *)

Lemma NoDup_map_snoc {A B} (f : A -> B) (l : list A) (x : A) :
  NoDup (map f l) -> ~ In (f x) (map f l) -> NoDup (map f (l ++ [x])).
Proof.
  intros Hnd Hx. rewrite map_app. apply NoDup_app. split; [exact Hnd|]. split.
  - intros y Hy Hy'. cbn in Hy'. apply list_elem_of_In in Hy, Hy'.
    destruct Hy' as [<-|[]]. exact (Hx Hy).
  - cbn. apply NoDup_singleton.
Qed.

Lemma NoDup_next_id_snoc {A} (f : A -> Z) (l : list A) (x : A) :
  f x = next_id (map f l) -> NoDup (map f l) -> NoDup (map f (l ++ [x])).
Proof.
  intros Hx Hnd. apply NoDup_map_snoc; [exact Hnd|].
  rewrite Hx. apply next_id_not_in.
Qed.

Lemma map_map_stable {A B} (f : A -> B) (g : A -> A) (l : list A) :
  (forall x, f (g x) = f x) -> map f (map g l) = map f l.
Proof. intros H. rewrite map_map. apply map_ext, H. Qed.

Lemma keys_unique_registered ud w s :
  keys_unique s ->
  (forall u, In u (users s)
             -> ~ taken (uc_username ud) (uc_email ud) (generate_api_key w) u) ->
  keys_unique (set_users (users s ++ [new_account ud w s]) s).
Proof.
  intros (H1 & H2 & H3 & H4 & H5 & H6 & H7 & H8) Hno.
  unfold keys_unique, set_users, taken in *. cbn.
  repeat split; try assumption.
  - apply NoDup_next_id_snoc; [reflexivity|exact H1].
  - apply NoDup_map_snoc; [exact H2|]. cbn. intros Hin.
    apply in_map_iff in Hin as (u & He & Hu). apply (Hno u Hu). tauto.
  - apply NoDup_map_snoc; [exact H3|]. cbn. intros Hin.
    apply in_map_iff in Hin as (u & He & Hu). apply (Hno u Hu). tauto.
  - apply NoDup_map_snoc; [exact H4|]. cbn. intros Hin.
    apply in_map_iff in Hin as (u & He & Hu). apply (Hno u Hu). tauto.
Qed.

Lemma keys_unique_consumed u s : keys_unique s -> keys_unique (consumed u s).
Proof.
  unfold consumed. destruct (is_basic u); [|trivial].
  intros (H1 & H2 & H3 & H4 & H5 & H6 & H7 & H8).
  unfold keys_unique, update_users_where_id, set_users. cbn.
  rewrite !map_map_stable
    by (intros x; destruct (Z.eqb (Users.id x) (Users.id u)); reflexivity).
  repeat split; assumption.
Qed.

Lemma keys_unique_add_history rq w u s :
  keys_unique s -> keys_unique (add_history (new_history rq w u s) s).
Proof.
  intros (H1 & H2 & H3 & H4 & H5 & H6 & H7 & H8).
  unfold keys_unique, add_history. cbn. repeat split; try assumption.
  apply NoDup_next_id_snoc; [reflexivity|exact H6].
Qed.

Lemma keys_unique_add_voice rq w u s :
  keys_unique s -> keys_unique (add_voice (new_clone rq w u s) s).
Proof.
  intros (H1 & H2 & H3 & H4 & H5 & H6 & H7 & H8).
  unfold keys_unique, add_voice. cbn. repeat split; try assumption.
  apply NoDup_next_id_snoc; [reflexivity|exact H5].
Qed.

Lemma keys_unique_subscribed rq w s :
  keys_unique s -> txn_collides w s = false -> keys_unique (subscribed rq w s).
Proof.
  intros (H1 & H2 & H3 & H4 & H5 & H6 & H7 & H8) Hc.
  unfold keys_unique, subscribed. cbn.
  rewrite !map_map_stable
    by (intros x; destruct (Z.eqb (Users.id x) (sr_user_id rq)); reflexivity).
  repeat split; try assumption.
  - apply NoDup_next_id_snoc; [reflexivity|exact H7].
  - apply NoDup_map_snoc; [exact H8|]. cbn. intros Hin.
    apply txn_collides_false in Hc. rewrite Forall_forall in Hc.
    apply (Hc _ (proj2 (list_elem_of_In _ _) Hin)). reflexivity.
Qed.

Lemma keys_unique_insert_voice owner name type params lang acc emotions sample s :
  keys_unique s ->
  keys_unique (insert_voice owner name type params lang acc emotions sample s).2.
Proof.
  intros (H1 & H2 & H3 & H4 & H5 & H6 & H7 & H8).
  unfold keys_unique, insert_voice. cbn. repeat split; try assumption.
  apply NoDup_next_id_snoc; [reflexivity|exact H5].
Qed.

Lemma keys_unique_foldl_insert l : forall s,
  keys_unique s -> keys_unique (foldl insert_default_voice s l).
Proof.
  induction l as [|[[[[[name type] params] lang] acc] emotions] l IH]; intros s Hs;
    [exact Hs|].
  cbn [foldl]. apply IH. unfold insert_default_voice.
  apply keys_unique_insert_voice, Hs.
Qed.

(** X17: every handler keeps the unique columns of the store unique,
    whatever it answers and whatever the store does while it runs: row
    ids of the four tables, usernames, emails, api keys and transaction
    ids hold no value twice after the request if they held none
    before. *)
Theorem handlers_keep_keys_unique w s :
  keys_unique s ->
  keys_unique (serve (fun _ => init_db) w s).2
  /\ (forall ud, keys_unique (serve (register_user ud) w s).2)
  /\ (forall ul, keys_unique (serve (login_user ul) w s).2)
  /\ (forall key, keys_unique (serve (list_voices key) w s).2)
  /\ (forall rq, keys_unique (serve (generate_speech rq) w s).2)
  /\ (forall cl, keys_unique (serve (clone_voice cl) w s).2)
  /\ (forall rq, keys_unique (serve (handle_subscription rq) w s).2)
  /\ (forall k, keys_unique (serve (get_user_history k) w s).2).
Proof.
  intros Hs.
  assert (Hlogin : forall ul, (serve (login_user ul) w s).2 = s)
    by (intros ul; apply read_only_serve, read_only_login_user).
  assert (Hlist : forall key, (serve (list_voices key) w s).2 = s)
    by (intros key; apply read_only_serve, read_only_list_voices).
  assert (Hhist : forall k, (serve (get_user_history k) w s).2 = s)
    by (intros k; apply read_only_serve, read_only_get_user_history).
  split.
  { destruct (init_db_persists w s) as [->|[_ ->]]; [exact Hs|].
    apply keys_unique_foldl_insert, Hs. }
  split.
  { intros ud. destruct (register_user_persists ud w s) as [->|[Hno ->]]; [exact Hs|].
    apply keys_unique_registered; assumption. }
  split; [intros ul; rewrite Hlogin; exact Hs|].
  split; [intros key; rewrite Hlist; exact Hs|].
  split.
  { intros rq.
    destruct (generate_speech_outcomes rq w s) as [->|(u & v & _ & _ & [->|[_ ->]])];
      [exact Hs|apply keys_unique_consumed, Hs|].
    apply keys_unique_add_history, keys_unique_consumed, Hs. }
  split.
  { intros cl. destruct (clone_voice_persists cl w s) as [->|(u & _ & _ & ->)]; [exact Hs|].
    apply keys_unique_add_voice, Hs. }
  split.
  { intros rq. destruct (handle_subscription_persists rq w s) as [->|[Hc ->]]; [exact Hs|].
    apply keys_unique_subscribed; assumption. }
  intros k. rewrite Hhist. exact Hs.
Qed.

Lemma handlers_keep_keys_unique_witness :
  keys_unique (serve (register_user eve_signup) demo_world demo_db).2
  /\ keys_unique (serve (generate_speech ann_request) insert_fault_world demo_db).2
  /\ keys_unique (serve (handle_subscription ann_premium) read_back_fault_world demo_db).2.
Proof.
  assert (Hs : keys_unique demo_db) by (repeat split; compute_done).
  split; [|split].
  - apply (handlers_keep_keys_unique demo_world demo_db Hs).
  - apply (handlers_keep_keys_unique insert_fault_world demo_db Hs).
  - apply (handlers_keep_keys_unique read_back_fault_world demo_db Hs).
Defined.

(** ** Well-formedness, whatever the store does *)

Lemma well_formed_foldl_insert l : forall s,
  Forall (fun v => v.1.1.1.1.2 = "preset") l ->
  well_formed s = true -> well_formed (foldl insert_default_voice s l) = true.
Proof.
  induction l as [|[[[[[name type] params] lang] acc] emotions] l IH]; intros s Hl Hs;
    [exact Hs|].
  apply Forall_cons in Hl as [Ht Hl]. cbn in Ht. subst type.
  cbn [foldl]. apply IH; [exact Hl|].
  unfold insert_default_voice, insert_voice, well_formed in *. cbn.
  apply andb_prop in Hs as [Hu Hv]. rewrite forallb_app, Hu, Hv. reflexivity.
Qed.

(** X18: every handler keeps the store well formed, whatever it answers
    and whatever the store does while it runs, as long as the uuid
    drawn is not the empty string: user ids stay positive, api keys
    non-empty, and presets without owner. *)
Theorem handlers_keep_store_well_formed w s :
  well_formed s = true ->
  uuid4 w <> "" ->
  well_formed (serve (fun _ => init_db) w s).2 = true
  /\ (forall ud, well_formed (serve (register_user ud) w s).2 = true)
  /\ (forall rq, well_formed (serve (generate_speech rq) w s).2 = true)
  /\ (forall cl, well_formed (serve (clone_voice cl) w s).2 = true)
  /\ (forall rq, well_formed (serve (handle_subscription rq) w s).2 = true).
Proof.
  intros Hs Hk.
  split.
  { destruct (init_db_persists w s) as [->|[_ ->]]; [exact Hs|].
    apply well_formed_foldl_insert; [|exact Hs].
    repeat constructor. }
  split.
  { intros ud. destruct (register_user_persists ud w s) as [->|[_ ->]]; [exact Hs|].
    unfold well_formed, set_users in *. cbn. apply andb_prop in Hs as [Hu Hv].
    rewrite forallb_app, Hu, Hv. cbn. unfold user_ok, new_account. cbn.
    unfold generate_api_key.
    pose proof (maxZ_nonneg (map Users.id (users s))).
    destruct (Z.ltb_spec 0 (next_id (map Users.id (users s)))); [|unfold next_id in *; lia].
    destruct (String.eqb_spec (uuid4 w) ""); [contradiction|reflexivity]. }
  split.
  { intros rq.
    destruct (generate_speech_outcomes rq w s) as [->|(u & v & _ & _ & [->|[_ ->]])];
      [exact Hs|apply well_formed_consumed, Hs|].
    apply (well_formed_consumed u) in Hs. exact Hs. }
  split.
  { intros cl. destruct (clone_voice_persists cl w s) as [->|(u & _ & _ & ->)]; [exact Hs|].
    unfold well_formed, add_voice in *. cbn. apply andb_prop in Hs as [Hu Hv].
    rewrite forallb_app, Hu, Hv. reflexivity. }
  intros rq. destruct (handle_subscription_persists rq w s) as [->|[_ ->]]; [exact Hs|].
  unfold well_formed, subscribed in *. cbn.
  rewrite forallb_map_stable; [exact Hs|].
  intros x. destruct (Z.eqb (Users.id x) (sr_user_id rq)); reflexivity.
Qed.

Lemma handlers_keep_store_well_formed_witness :
  well_formed (serve (fun _ => init_db) demo_world empty_db).2 = true
  /\ well_formed (serve (register_user eve_signup) demo_world demo_db).2 = true
  /\ well_formed (serve (clone_voice bob_clone_request) later_world demo_db).2 = true.
Proof.
  assert (Hk : forall w, uuid4 w = uuid4 demo_world \/ uuid4 w = uuid4 later_world ->
                         uuid4 w <> "").
  { intros w [H|H]; rewrite H; discriminate. }
  destruct (handlers_keep_store_well_formed demo_world empty_db eq_refl
              (Hk _ (or_introl eq_refl))) as (Hinit & _).
  destruct (handlers_keep_store_well_formed demo_world demo_db eq_refl
              (Hk _ (or_introl eq_refl))) as (_ & Hreg & _).
  destruct (handlers_keep_store_well_formed later_world demo_db eq_refl
              (Hk _ (or_intror eq_refl))) as (_ & _ & _ & Hclone & _).
  split; [exact Hinit|]. split; [exact (Hreg eve_signup)|exact (Hclone bob_clone_request)].
Defined.

(** ** Seeding *)


Lemma has_preset_snoc s vs v :
  is_preset v = true ->
  has_preset (Db (users s) (voices s ++ v :: vs) (audio_history s) (payments s)) = true.
Proof.
  intros Hv. unfold has_preset. cbn. rewrite existsb_app. cbn. rewrite Hv.
  apply orb_true_r.
Qed.

Lemma foldl_insert_default_voices l : forall s,
  Forall (fun v => v.1.1.1.1.2 = "preset") l ->
  exists vs,
    foldl insert_default_voice s l
    = Db (users s) (voices s ++ vs) (audio_history s) (payments s)
    /\ map Voices.voice_name vs = map (fun v => v.1.1.1.1.1) l
    /\ length vs = length l
    /\ Forall (fun v => Voices.voice_type v = "preset" /\ Voices.user_id v = None) vs
    /\ Forall (fun v => forall v', In v' (voices s) -> Voices.id v' < Voices.id v) vs.
Proof.
  induction l as [|[[[[[name type] params] lang] acc] emotions] l IH]; intros s Hl.
  - exists []. cbn. rewrite app_nil_r. destruct s. repeat split; constructor.
  - apply Forall_cons in Hl as [Ht Hl]. cbn in Ht. subst type. cbn [foldl].
    set (v1 := Voices.Row (next_id (map Voices.id (voices s))) None name "preset" params
                 lang acc emotions None).
    remember (insert_default_voice s (name, "preset", params, lang, acc, emotions))
      as s1 eqn:Es1.
    assert (Hs1 : s1 = Db (users s) (voices s ++ [v1]) (audio_history s) (payments s))
      by (subst s1; reflexivity).
    clear Es1.
    destruct (IH s1 Hl) as (vs & Hfold & Hnames & Hlen & Htypes & Hfresh).
    exists (v1 :: vs). rewrite Hfold, Hs1. cbn [users voices audio_history payments].
    split; [rewrite <- app_assoc; reflexivity|].
    split; [cbn; rewrite Hnames; reflexivity|].
    split; [cbn; rewrite Hlen; reflexivity|].
    split; [constructor; [split; reflexivity|exact Htypes]|].
    constructor.
    + intros v' Hv'. cbn. apply next_id_fresh, in_map, Hv'.
    + eapply Forall_impl; [exact Hfresh|]. cbn. intros v Hv v' Hv'.
      apply Hv. rewrite Hs1. cbn. apply in_or_app. left. exact Hv'.
Qed.

(** X19: with the store answering, [init_db] seeds the presets once. On
    a store with a preset it changes nothing. On a store without one it
    appends the five default voices, all of type "preset" and without
    owner, under ids greater than every existing voice id, after the
    voices that are there, and touches no other table. Running it a
    second time changes nothing. *)
Theorem init_db_seeds_once w w' s :
  store_faults w = None ->
  store_faults w' = None ->
  (has_preset s = true -> serve (fun _ => init_db) w s = (inr tt, s))
  /\ (has_preset s = false ->
      exists vs,
        serve (fun _ => init_db) w s
        = (inr tt, Db (users s) (voices s ++ vs) (audio_history s) (payments s))
        /\ map Voices.voice_name vs
           = ["Nova (Neutral Male)"; "Stella (Neutral Female)"; "Orion (Deep Male)";
              "Lyra (Bright Female)"; "Echo (Multilingual Placeholder)"]
        /\ length vs = 5%nat
        /\ Forall (fun v => Voices.voice_type v = "preset" /\ Voices.user_id v = None) vs
        /\ Forall (fun v => forall v', In v' (voices s) -> Voices.id v' < Voices.id v) vs)
  /\ serve (fun _ => init_db) w' (serve (fun _ => init_db) w s).2
     = (inr tt, (serve (fun _ => init_db) w s).2).
Proof.
  intros Hf Hf'.
  assert (Hp : forall d, Nat.eqb (length (List.filter is_preset (voices d))) 0
                         = negb (has_preset d)).
  { intros d. unfold has_preset. induction (voices d) as [|v l IH]; [reflexivity|].
    cbn. destruct (is_preset v); [reflexivity|exact IH]. }
  assert (Hrun : forall w0 d, store_faults w0 = None ->
            serve (fun _ => init_db) w0 d
            = (inr tt, if has_preset d then d else seeded d)).
  { intros w0 d H0. unfold serve, init_db. rewrite H0. run_monad. rewrite Hp.
    destruct (has_preset d); reflexivity. }
  split; [|split].
  - intros H. rewrite Hrun by exact Hf. rewrite H. reflexivity.
  - intros H. rewrite Hrun by exact Hf. rewrite H.
    destruct (foldl_insert_default_voices default_voices s ltac:(repeat constructor))
      as (vs & Hfold & Hrest).
    exists vs. unfold seeded. rewrite Hfold. split; [reflexivity|exact Hrest].
  - rewrite (Hrun w s Hf). cbn [snd].
    destruct (has_preset s) eqn:H.
    + rewrite Hrun by exact Hf'. rewrite H. reflexivity.
    + rewrite Hrun by exact Hf'.
      destruct (foldl_insert_default_voices default_voices s ltac:(repeat constructor))
        as (vs & Hfold & _ & Hlen & Htypes & _).
      unfold seeded. rewrite Hfold.
      destruct vs as [|v vs]; [discriminate Hlen|].
      apply Forall_cons in Htypes as [[Ht _] _].
      rewrite has_preset_snoc; [reflexivity|].
      unfold is_preset. rewrite Ht. reflexivity.
Qed.

Lemma init_db_seeds_once_witness :
  serve (fun _ => init_db) demo_world demo_db = (inr tt, demo_db)
  /\ (exists vs,
        serve (fun _ => init_db) demo_world empty_db
        = (inr tt, Db [] ([] ++ vs) [] [])
        /\ map Voices.voice_name vs
           = ["Nova (Neutral Male)"; "Stella (Neutral Female)"; "Orion (Deep Male)";
              "Lyra (Bright Female)"; "Echo (Multilingual Placeholder)"]
        /\ length vs = 5%nat
        /\ Forall (fun v => Voices.voice_type v = "preset" /\ Voices.user_id v = None) vs
        /\ Forall (fun v => forall v', In v' [] -> Voices.id v' < Voices.id v) vs)
  /\ serve (fun _ => init_db) later_world (serve (fun _ => init_db) demo_world empty_db).2
     = (inr tt, (serve (fun _ => init_db) demo_world empty_db).2).
Proof.
  split; [|split].
  - apply (init_db_seeds_once demo_world later_world demo_db); reflexivity.
  - apply (proj1 (proj2 (init_db_seeds_once demo_world later_world empty_db
                           eq_refl eq_refl))).
    reflexivity.
  - apply (init_db_seeds_once demo_world later_world empty_db); reflexivity.
Defined.

(** ** No recorded generation without a spent one *)

Lemma consumed_lookup k a s u :
  user_by_api_key k s = Some u ->
  user_by_api_key k (consumed a s)
  = Some (if is_basic a && Z.eqb (Users.id u) (Users.id a) then use_generation u else u).
Proof.
  intros Hu. unfold consumed. destruct (is_basic a); cbn; [|exact Hu].
  rewrite user_by_api_key_update by reflexivity. rewrite Hu. reflexivity.
Qed.

Lemma consumed_ids a s : map Users.id (users (consumed a s)) = map Users.id (users s).
Proof.
  unfold consumed. destruct (is_basic a); [|reflexivity].
  unfold update_users_where_id, set_users. cbn. apply map_map_stable.
  intros x. destruct (Z.eqb (Users.id x) (Users.id a)); reflexivity.
Qed.

Lemma recorded_consumed i a s : recorded i (consumed a s) = recorded i s.
Proof. unfold consumed. destruct (is_basic a); reflexivity. Qed.

Lemma recorded_add_history i r s :
  recorded i (add_history r s)
  = recorded i s + (if Z.eqb (AudioHistory.user_id r) i then 1 else 0).
Proof.
  unfold recorded, add_history. cbn. rewrite filter_app_last, length_app.
  destruct (Z.eqb (AudioHistory.user_id r) i); cbn; lia.
Qed.

Lemma generation_accounting_step rq w s k u :
  ids_unique s ->
  user_by_api_key k s = Some u ->
  is_basic u = true ->
  exists u',
    user_by_api_key k (serve (generate_speech rq) w s).2 = Some u'
    /\ is_basic u' = true
    /\ Users.id u' = Users.id u
    /\ ids_unique (serve (generate_speech rq) w s).2
    /\ recorded (Users.id u) (serve (generate_speech rq) w s).2 - recorded (Users.id u) s
       <= Users.daily_generations_left u - Users.daily_generations_left u'.
Proof.
  intros Hid Hu Hb.
  pose proof Hu as Hin. apply find_some in Hin as [Hin _].
  destruct (generate_speech_outcomes rq w s) as [->|(a & v & Ha & _ & Hout)].
  { exists u. repeat split; try assumption. lia. }
  pose proof (authorize_some _ _ _ Ha) as Hina. apply find_some in Hina as [Hina _].
  assert (Hsame : Users.id u = Users.id a -> a = u).
  { intros He. eapply NoDup_map_inj; eauto. }
  set (u' := if is_basic a && Z.eqb (Users.id u) (Users.id a) then use_generation u else u).
  assert (Hu' : is_basic u' = true /\ Users.id u' = Users.id u
                /\ Users.daily_generations_left u' <= Users.daily_generations_left u).
  { unfold u'. destruct (is_basic a && Z.eqb (Users.id u) (Users.id a)); cbn;
      repeat split; try assumption; lia. }
  destruct Hu' as (Hb' & Hid' & Hle).
  assert (Hids : ids_unique (consumed a s)).
  { unfold ids_unique. rewrite consumed_ids. exact Hid. }
  exists u'. destruct Hout as [->|[_ ->]].
  - split; [apply consumed_lookup, Hu|]. repeat split; try assumption.
    rewrite recorded_consumed. lia.
  - split; [apply (consumed_lookup k a s u Hu)|]. repeat split; try assumption.
    rewrite recorded_add_history, recorded_consumed. cbn.
    destruct (Z.eqb_spec (Users.id a) (Users.id u)) as [He|He]; [|lia].
    assert (a = u) by (apply Hsame; congruence). subst a.
    unfold u'. rewrite Hb, Z.eqb_refl. cbn. lia.
Qed.

(** X20: a Basic account never has more generations recorded than it
    has paid for. Over any sequence of generation requests, of any
    accounts, with any outcome of the engine and of the store, on a
    store whose user ids are unique, the number of history rows the
    account gains is at most the allowance it loses (a failed synthesis
    is the case where it loses one and gains none). *)
Theorem recorded_generations_are_paid reqs : forall s k u,
  ids_unique s ->
  user_by_api_key k s = Some u ->
  is_basic u = true ->
  exists u',
    user_by_api_key k (generate_all reqs s).2 = Some u'
    /\ is_basic u' = true
    /\ Users.id u' = Users.id u
    /\ recorded (Users.id u) (generate_all reqs s).2 - recorded (Users.id u) s
       <= Users.daily_generations_left u - Users.daily_generations_left u'.
Proof.
  induction reqs as [|[rq w] reqs IH]; intros s k u Hid Hu Hb.
  - exists u. cbn. repeat split; try assumption. lia.
  - destruct (generation_accounting_step rq w s k u Hid Hu Hb)
      as (u1 & Hu1 & Hb1 & Hid1 & Hids1 & Hle1).
    cbn [generate_all].
    destruct (serve (generate_speech rq) w s) as [r s1]. cbn [snd] in *.
    destruct (IH s1 k u1 Hids1 Hu1 Hb1) as (u' & Hu' & Hb' & Hid' & Hle').
    destruct (generate_all reqs s1) as [rs s2]. cbn [snd] in *.
    exists u'. repeat split; try assumption; try congruence.
    rewrite Hid1 in Hle'. lia.
Qed.

Lemma recorded_generations_are_paid_witness :
  exists u',
    user_by_api_key "key-ann"
      (generate_all [(ann_request, demo_world); (ann_request, engine_down_world);
                     (bob_request, demo_world); (ann_borrows_request, later_world);
                     (ann_request, insert_fault_world)] demo_db).2
    = Some u'
    /\ is_basic u' = true
    /\ Users.id u' = 1
    /\ recorded 1
         (generate_all [(ann_request, demo_world); (ann_request, engine_down_world);
                        (bob_request, demo_world); (ann_borrows_request, later_world);
                        (ann_request, insert_fault_world)] demo_db).2
       - recorded 1 demo_db
       <= 10 - Users.daily_generations_left u'.
Proof.
  apply (recorded_generations_are_paid
           [(ann_request, demo_world); (ann_request, engine_down_world);
            (bob_request, demo_world); (ann_borrows_request, later_world);
            (ann_request, insert_fault_world)] demo_db "key-ann" ann);
    [unfold ids_unique; compute_done|reflexivity|reflexivity].
Defined.

(** ** How much of a card number is kept *)







(** ** What generation and tier changes leave alone *)

Lemma list_voices_depends_on k w s s' :
  store_faults w = None ->
  voices s' = voices s ->
  (forall k', option_map Users.id (user_by_api_key k' s')
              = option_map Users.id (user_by_api_key k' s)) ->
  (serve (list_voices k) w s').1 = (serve (list_voices k) w s).1.
Proof.
  intros Hf Hv Hk. rewrite !list_voices_run by exact Hf. cbn [fst]. rewrite Hv.
  destruct k as [k|]; [|reflexivity].
  destruct (String.eqb k ""); [reflexivity|]. rewrite Hk. reflexivity.
Qed.

Lemma generate_speech_frame rq w s :
  voices (serve (generate_speech rq) w s).2 = voices s
  /\ payments (serve (generate_speech rq) w s).2 = payments s
  /\ forall k, option_map Users.id (user_by_api_key k (serve (generate_speech rq) w s).2)
               = option_map Users.id (user_by_api_key k s).
Proof.
  assert (Hc : forall a, voices (consumed a s) = voices s
                         /\ payments (consumed a s) = payments s
                         /\ forall k, option_map Users.id (user_by_api_key k (consumed a s))
                                      = option_map Users.id (user_by_api_key k s)).
  { intros a. unfold consumed. destruct (is_basic a); [|repeat split].
    split; [reflexivity|]. split; [reflexivity|].
    intros k. rewrite user_by_api_key_update by reflexivity.
    destruct (user_by_api_key k s) as [x|]; [|reflexivity]. cbn.
    destruct (Z.eqb (Users.id x) (Users.id a)); reflexivity. }
  destruct (generate_speech_outcomes rq w s) as [->|(a & v & _ & _ & [->|[_ ->]])].
  - repeat split.
  - apply Hc.
  - apply (Hc a).
Qed.

(** X22: generation requests and tier changes never alter a voice
    listing. Whatever such a request answers and whatever the store
    does while it runs, every listing, with any token or none, is
    afterwards what it was before. *)
Theorem listing_survives_generation_and_tier_change w w' s key :
  store_faults w' = None ->
  (forall rq, (serve (list_voices key) w' (serve (generate_speech rq) w s).2).1
              = (serve (list_voices key) w' s).1)
  /\ (forall rq, (serve (list_voices key) w' (serve (handle_subscription rq) w s).2).1
                 = (serve (list_voices key) w' s).1).
Proof.
  intros Hf'. split.
  - intros rq. destruct (generate_speech_frame rq w s) as (Hv & _ & Hk).
    apply list_voices_depends_on; assumption.
  - intros rq. destruct (handle_subscription_persists rq w s) as [->|[_ ->]];
      [reflexivity|].
    apply list_voices_depends_on; [exact Hf'|reflexivity|].
    intros k. rewrite user_by_api_key_subscribed.
    destruct (user_by_api_key k s) as [x|]; [|reflexivity]. cbn.
    destruct (Z.eqb (Users.id x) (sr_user_id rq)); reflexivity.
Qed.

Lemma listing_survives_generation_and_tier_change_witness :
  (serve (list_voices (Some "key-bob")) later_world
     (serve (generate_speech bob_request) engine_down_world demo_db).2).1
  = (serve (list_voices (Some "key-bob")) later_world demo_db).1
  /\ (serve (list_voices (Some "key-bob")) later_world
        (serve (handle_subscription ann_gold) demo_world demo_db).2).1
     = (serve (list_voices (Some "key-bob")) later_world demo_db).1.
Proof.
  destruct (listing_survives_generation_and_tier_change engine_down_world later_world
              demo_db (Some "key-bob") eq_refl) as [Hgen _].
  destruct (listing_survives_generation_and_tier_change demo_world later_world
              demo_db (Some "key-bob") eq_refl) as [_ Hsub].
  split; [exact (Hgen bob_request)|exact (Hsub ann_gold)].
Defined.

Lemma history_of_add_other i r s :
  AudioHistory.user_id r <> i -> history_of i (add_history r s) = history_of i s.
Proof.
  intros Hne. rewrite !history_of_spec. unfold add_history. cbn.
  rewrite filter_app_last.
  destruct (Z.eqb_spec (AudioHistory.user_id r) i); [contradiction|].
  rewrite app_nil_r. reflexivity.
Qed.

Lemma history_of_consumed i a s : history_of i (consumed a s) = history_of i s.
Proof. unfold consumed. destruct (is_basic a); reflexivity. Qed.

(** X23: a generation request of one account leaves the history of
    every account with another id as it was: whatever the request
    answers and whatever the store does while it runs, the history
    fetch of such an account answers afterwards what it answered
    before. *)
Theorem history_is_isolated_from_other_accounts rq w w' s k u :
  store_faults w' = None ->
  user_by_api_key k s = Some u ->
  (forall a, authorize (user_api_key rq) s = inr a -> Users.id a <> Users.id u) ->
  (serve (get_user_history k) w' (serve (generate_speech rq) w s).2).1
  = (serve (get_user_history k) w' s).1.
Proof.
  intros Hf' Hu Hother. rewrite !get_user_history_run by exact Hf'.
  destruct (generate_speech_outcomes rq w s) as [->|(a & v & Ha & _ & Hout)];
    [reflexivity|].
  specialize (Hother a Ha).
  assert (Hk : user_by_api_key k (consumed a s) = Some u).
  { rewrite (consumed_lookup k a s u Hu).
    destruct (Z.eqb_spec (Users.id u) (Users.id a)); [congruence|].
    rewrite andb_false_r. reflexivity. }
  assert (Hauth : forall d, user_by_api_key k d = Some u -> authorize k d = authorize k s).
  { intros d Hd. unfold authorize. rewrite Hd, Hu. reflexivity. }
  destruct Hout as [->|[_ ->]].
  - rewrite (Hauth _ Hk). destruct (authorize k s) as [e|x]; [reflexivity|].
    cbn. rewrite history_of_consumed. reflexivity.
  - rewrite (Hauth (add_history _ (consumed a s)) Hk).
    destruct (authorize k s) as [e|x] eqn:Hx; [reflexivity|].
    cbn. apply authorize_some in Hx. rewrite Hu in Hx. injection Hx as <-.
    rewrite history_of_add_other by (cbn; exact Hother).
    rewrite history_of_consumed. reflexivity.
Qed.

Lemma history_is_isolated_from_other_accounts_witness :
  (serve (get_user_history "key-ann") later_world
     (serve (generate_speech bob_request) demo_world busy_db).2).1
  = (serve (get_user_history "key-ann") later_world busy_db).1.
Proof.
  apply (history_is_isolated_from_other_accounts bob_request demo_world later_world busy_db
           "key-ann" (use_generation (use_generation ann)));
    [reflexivity|reflexivity|].
  intros a Ha. vm_compute in Ha. injection Ha as <-. cbn. lia.
Defined.
